(** * vscode-journal: the command layer of [src/ext/commands.ts]

    A shallow embedding of [JournalCommands]: the duration command
    [computeAndPrintDuration] and the rejection handlers of the three
    promise pipelines [processInput], [showNote] and [showEntry].

    Conventions.
    - A JavaScript number is [NaN] or a finite rational; the rounding of an
      arithmetic result to a binary64 value is the parameter [fl].
    - A moment object is its validity and its [valueOf] in milliseconds; the
      parser [moment(text, format)] of the moment library is the parameter
      [moment].
    - The executor of [Q.Promise] runs in a small state-and-exception monad
      whose state records the calls of [injectString] and the settlement of
      the promise.  [computeAndPrintDuration] is the command with an
      [injectString] that returns; [computeAndPrintDurationWith] is the
      command with one that may throw. *)

From Stdlib Require Import ZArith QArith Qround Qabs Lqa Lia.
From Stdlib Require Import List Bool Ascii String Permutation.
From Stdlib Require Import DecimalString DecimalPos DecimalN.
Import ListNotations.

Local Open Scope Z_scope.

(* ================================================================== *)
(** * JavaScript values *)
(* ================================================================== *)

(** Values that reach [reject] or a [catch] handler. *)
Inductive JSValue : Type :=
| JSString (s : string)
| JSError (message : string)
| JSTypeError (message : string).

(** [x != s] for a string [s], with the loose inequality of JavaScript: a
    string is compared by content; an error object is compared through
    [Error.prototype.toString], which puts the name of the error and a colon
    before the message, and so differs from the strings compared here. *)
Definition looseNotEqualString (x : JSValue) (s : string) : bool :=
  match x with
  | JSString t => negb (String.eqb t s)
  | JSError _ | JSTypeError _ => true
  end.

(** Numbers: [NaN] or the exact value of a finite double. *)
Inductive JSNumber : Type :=
| NaN
| Num (q : Q).

Definition Math_abs (x : JSNumber) : JSNumber :=
  match x with
  | NaN => NaN
  | Num q => Num (Qabs q)
  end.

(* ------------------------------------------------------------------ *)
(** ** Decimal digits *)

Definition isDigit (c : ascii) : bool :=
  let n := nat_of_ascii c in (48 <=? n)%nat && (n <=? 57)%nat.

(** The decimal representation of a natural number, most significant digit
    first; ["0"] for zero. *)
Definition decimalDigits (n : N) : list ascii :=
  list_ascii_of_string (NilZero.string_of_uint (N.to_uint n)).

Definition zeros (k : nat) : list ascii := repeat "0"%char k.

(** The number a list of decimal digits denotes; [None] when a character is
    not a digit or the list is empty. *)
Definition digitsValue (l : list ascii) : option N :=
  option_map N.of_uint (NilEmpty.uint_of_string (string_of_list_ascii l)).

(* ------------------------------------------------------------------ *)
(** ** [Number.prototype.toFixed] *)

(** Step 9 of the ECMAScript algorithm for a non-negative [x] below 10^21:
    [n] is the integer nearest to [x * 10^f], the larger one on a tie; its
    digits are padded with zeros to [f + 1] characters and a point is put
    before the last [f]. *)
Definition nearestScaled (f : nat) (x : Q) : Z :=
  Qfloor (x * inject_Z (10 ^ Z.of_nat f) + (1 # 2)).

Definition paddedDigits (f : nat) (n : N) : list ascii :=
  let m := decimalDigits n in
  let k := List.length m in
  if (k <=? f)%nat then zeros (f + 1 - k) ++ m else m.

Definition fixedDigits (f : nat) (n : N) : list ascii :=
  let m := paddedDigits f n in
  let k := List.length m in
  match f with
  | O => m
  | S _ => firstn (k - f) m ++ "."%char :: skipn (k - f) m
  end.

Section Numbers.

(** [fl q]: the binary64 value nearest to the exact result [q] of an
    arithmetic operation. *)
Variable fl : Q -> Q.

(** [Number::toString] for magnitudes of 10^21 and more (exponent
    notation), where [toFixed] gives up fixed notation. *)
Variable numberToString : Q -> string.

Definition toFixed (f : nat) (x : JSNumber) : string :=
  match x with
  | NaN => "NaN"
  | Num q =>
      let s := if Qle_bool 0 q then ""%string else "-"%string in
      let x := if Qle_bool 0 q then q else (- q)%Q in
      let m :=
        if Qle_bool (inject_Z (10 ^ 21)) x then numberToString x
        else string_of_list_ascii
               (fixedDigits f (Z.to_N (nearestScaled f x))) in
      (s ++ m)%string
  end.

End Numbers.

(* ================================================================== *)
(** * The moment library *)
(* ================================================================== *)

(** A moment object: invalid, or valid with its [valueOf] (milliseconds
    since the epoch). *)
Inductive Moment : Type :=
| ValidMoment (valueOf : Z)
| InvalidMoment.

Definition isValid (m : Moment) : bool :=
  match m with
  | ValidMoment _ => true
  | InvalidMoment => false
  end.

(** [a.isAfter(b)]: false as soon as one of the two is invalid. *)
Definition isAfter (a b : Moment) : bool :=
  match a, b with
  | ValidMoment x, ValidMoment y => y <? x
  | _, _ => false
  end.

(** The largest time value of a JavaScript [Date], in milliseconds. *)
Definition maxTimeValue : Z := 8640000000000000.

Definition inDateRange (m : Moment) : Prop :=
  match m with
  | ValidMoment t => - maxTimeValue <= t <= maxTimeValue
  | InvalidMoment => True
  end.

(** A duration built from a number of milliseconds. *)
Record Duration : Type := mkDuration { _milliseconds : JSNumber }.

Definition duration (ms : JSNumber) : Duration := mkDuration ms.

Section MomentArithmetic.

Variable fl : Q -> Q.

(** [a.diff(b)]: [a - b] in milliseconds, [NaN] when one is invalid. *)
Definition diff (a b : Moment) : JSNumber :=
  match a, b with
  | ValidMoment x, ValidMoment y => Num (fl (inject_Z (x - y)))
  | _, _ => NaN
  end.

(** [d.asHours()]: the milliseconds divided by 36e5. *)
Definition asHours (d : Duration) : JSNumber :=
  match _milliseconds d with
  | NaN => NaN
  | Num q => Num (fl (q / inject_Z 3600000))
  end.

End MomentArithmetic.

(* ================================================================== *)
(** * The editor *)
(* ================================================================== *)

Record Position : Type := mkPosition { line : nat; character : nat }.

Record Range : Type := mkRange { range_start : Position; range_end : Position }.

Record Selection : Type := mkSelection { anchor : Position; active : Position }.

(** A regular expression, by its source text. *)
Definition RegExp : Type := string.

Record TextDocument : Type := mkTextDocument {
  fileName : string;
  getWordRangeAtPosition : Position -> RegExp -> option Range;
  getText : Range -> string
}.

Record TextEditor : Type := mkTextEditor {
  document : TextDocument;
  selections : list Selection
}.

(** What the command reads from its surroundings: the active editor of the
    window ([vscode.window.activeTextEditor], undefined when no editor has
    the focus) and the time format of the configuration
    ([this.ctrl.config.getTimeString()]). *)
Record Ambient : Type := mkAmbient {
  activeTextEditor : option TextEditor;
  getTimeString : string
}.

(* ================================================================== *)
(** * The promise executor *)
(* ================================================================== *)

(** One call of [this.ctrl.inject.injectString(document, text, position)]. *)
Record Injection : Type := mkInjection {
  inj_document : TextDocument;
  inj_text : string;
  inj_position : Position
}.

Inductive Settlement : Type :=
| Resolved
| Rejected (reason : JSValue).

(** The state an executor works on: the injections made so far, oldest
    first, and the settlement of the promise once [resolve] or [reject] has
    been called. *)
Record Run : Type := mkRun {
  injected : list Injection;
  settled : option Settlement
}.

Definition pending : Run := mkRun [] None.

(** A computation either returns a value or throws one. *)
Definition Exec (A : Type) : Type := Run -> (JSValue + A) * Run.

Definition ret {A} (a : A) : Exec A := fun r => (inr a, r).

Definition bind {A B} (c : Exec A) (k : A -> Exec B) : Exec B :=
  fun r =>
    match c r with
    | (inl e, r') => (inl e, r')
    | (inr a, r') => k a r'
    end.

Definition throw {A} (e : JSValue) : Exec A := fun r => (inl e, r).

Definition tryCatch {A} (body : Exec A) (handler : JSValue -> Exec A) : Exec A :=
  fun r =>
    match body r with
    | (inl e, r') => handler e r'
    | (inr a, r') => (inr a, r')
    end.

(** A promise settles once: later calls of [resolve] and [reject] are
    ignored. *)
Definition settle (s : Settlement) : Exec unit :=
  fun r =>
    match settled r with
    | None => (inr tt, mkRun (injected r) (Some s))
    | Some _ => (inr tt, r)
    end.

Definition resolve : Exec unit := settle Resolved.

Definition reject (reason : JSValue) : Exec unit := settle (Rejected reason).

Definition injectString (d : TextDocument) (text : string) (p : Position)
  : Exec unit :=
  fun r => (inr tt, mkRun (injected r ++ [mkInjection d text p]) (settled r)).

(** [injectString] as the collaborator it is: the call is made, and it
    returns or throws [thrown]. *)
Definition injectStringOr (thrown : option JSValue) (d : TextDocument)
    (text : string) (p : Position) : Exec unit :=
  fun r =>
    (match thrown with
     | Some e => inl e
     | None => inr tt
     end,
     mkRun (injected r ++ [mkInjection d text p]) (settled r)).

Notation "x <- c ;; k" := (bind c (fun x => k))
  (at level 61, c at next level, right associativity).
Notation "c ;;; k" := (bind c (fun _ => k))
  (at level 61, right associativity).

(** The promise as its executor leaves it. *)
Definition runExecutor (body : Exec unit) : Run := snd (body pending).

(* ================================================================== *)
(** * [computeAndPrintDuration] *)
(* ================================================================== *)

(** The word pattern of the command: a clock time, or one white-space
    character. *)
Definition regExp : RegExp :=
  "\d{1,2}:?\d{0,2}(?:\s?(?:am|AM|pm|PM))?|\s"%string.

(** The three local variables the loop over the selections assigns;
    [None] is [undefined]. *)
Record Locals : Type := mkLocals {
  start : option Moment;
  end_ : option Moment;
  target : option Position
}.

Definition noLocals : Locals := mkLocals None None None.

Definition selectionCountMessage : string :=
  "To compute the duration, you have to select the two times (or dates) in your text as well as the location where to print it. "%string.

Definition noStartMessage : string := "No valid start time selected"%string.
Definition noEndMessage : string := "No valid end time selected"%string.
Definition noTargetMessage : string :=
  "No valid target selected for printing the duration."%string.

(** Reading [editor.selections] when there is no active editor. *)
Definition undefinedEditorError : JSValue :=
  JSTypeError "Cannot read property 'selections' of undefined"%string.

Section Command.

(** [moment text format]: the parser of the moment library. *)
Variable moment : string -> string -> Moment.
Variable fl : Q -> Q.
Variable numberToString : Q -> string.

(** The time of a word: the configured format first, the glued format
    ["hmm"] when that is not valid. *)
Definition parseTime (text tpl : string) : Moment :=
  let time := moment text tpl in
  if negb (isValid time) then moment text "hmm"%string else time.

(** The callback of [editor.selections.forEach]. *)
Definition forEachBody (doc : TextDocument) (tpl : string)
    (l : Locals) (selection : Selection) : Locals :=
  match getWordRangeAtPosition doc (active selection) regExp with
  | None => mkLocals (start l) (end_ l) (Some (active selection))
  | Some range =>
      let text := getText doc range in
      let time := parseTime text tpl in
      match start l with
      | None => mkLocals (Some time) (end_ l) (target l)
      | Some s =>
          if isAfter s time
          then mkLocals (Some time) (Some s) (target l)
          else mkLocals (Some s) (Some time) (target l)
      end
  end.

Definition classify (editor : TextEditor) (tpl : string) : Locals :=
  fold_left (forEachBody (document editor) tpl) (selections editor) noLocals.

(** [Math.abs(duration.asHours()).toFixed(2)] for
    [duration = moment.duration(start.diff(end))]. *)
Definition formatDuration (s e : Moment) : string :=
  let duration := duration (diff fl s e) in
  toFixed numberToString 2 (Math_abs (asHours fl duration)).

(** The body of the [try] block. *)
Definition durationBody (a : Ambient) : Exec unit :=
  editor <- match activeTextEditor a with
            | Some editor => ret editor
            | None => throw undefinedEditorError
            end ;;
  (if negb (List.length (selections editor) =? 3)%nat
   then throw (JSError selectionCountMessage)
   else ret tt) ;;;
  let tpl := getTimeString a in
  let l := classify editor tpl in
  match start l, end_ l, target l with
  | None, _, _ => reject (JSString noStartMessage)
  | Some _, None, _ => reject (JSString noEndMessage)
  | Some _, Some _, None => reject (JSString noTargetMessage)
  | Some s, Some e, Some t =>
      injectString (document editor) (formatDuration s e) t ;;;
      resolve
  end.

Definition computeAndPrintDuration (a : Ambient) : Run :=
  runExecutor (tryCatch (durationBody a) (fun error => reject error)).

(** The same body with an [injectString] that may throw: [injectThrows]
    tells what a call throws, if anything.  The call is inside the [try]
    block. *)
Variable injectThrows : TextDocument -> string -> Position -> option JSValue.

Definition durationBodyWith (a : Ambient) : Exec unit :=
  editor <- match activeTextEditor a with
            | Some editor => ret editor
            | None => throw undefinedEditorError
            end ;;
  (if negb (List.length (selections editor) =? 3)%nat
   then throw (JSError selectionCountMessage)
   else ret tt) ;;;
  let tpl := getTimeString a in
  let l := classify editor tpl in
  match start l, end_ l, target l with
  | None, _, _ => reject (JSString noStartMessage)
  | Some _, None, _ => reject (JSString noEndMessage)
  | Some _, Some _, None => reject (JSString noTargetMessage)
  | Some s, Some e, Some t =>
      let formattedDuration := formatDuration s e in
      injectStringOr (injectThrows (document editor) formattedDuration t)
        (document editor) formattedDuration t ;;;
      resolve
  end.

Definition computeAndPrintDurationWith (a : Ambient) : Run :=
  runExecutor (tryCatch (durationBodyWith a) (fun error => reject error)).

End Command.

(* ================================================================== *)
(** * The promise pipelines *)
(* ================================================================== *)

(** A promise of the [Q] library by the way it settles.  A promise that
    stays pending runs no handler; it is not among the values of this type,
    and what is proved of a chain is proved of a chain whose stages
    settle. *)
Inductive Promise (A : Type) : Type :=
| Fulfilled (a : A)
| RejectedWith (reason : JSValue).

Arguments Fulfilled {A} a.
Arguments RejectedWith {A} reason.

(** [p.then(f)]: a rejection skips [f] and is handed on. *)
Definition andThen {A B} (p : Promise A) (f : A -> Promise B) : Promise B :=
  match p with
  | Fulfilled a => f a
  | RejectedWith reason => RejectedWith reason
  end.

(** [Q.all([p, q])]: fulfilled with both values, or rejected with the
    reason of the promise that rejects first; [pFirst] tells whether [p]
    settles before [q]. *)
Definition Q_all {A B} (pFirst : bool) (p : Promise A) (q : Promise B)
  : Promise (A * B) :=
  match p, q with
  | Fulfilled a, Fulfilled b => Fulfilled (a, b)
  | RejectedWith reason, Fulfilled _ => RejectedWith reason
  | Fulfilled _, RejectedWith reason => RejectedWith reason
  | RejectedWith first, RejectedWith second =>
      RejectedWith (if pFirst then first else second)
  end.

(** What a handler tells the user or the log. *)
Inductive Report : Type :=
| UtilError (message : string)
| ConsoleError (message : string) (reason : JSValue)
| ShowErrorMessage (message : string).

(** What a command leaves behind: its reports, oldest first, and the
    deferred it returned ([None] while it is not settled). *)
Record Outcome (A : Type) : Type := mkOutcome {
  reports : list Report;
  deferred : option (Promise A)
}.

Arguments mkOutcome {A} reports deferred.
Arguments reports {A} o.
Arguments deferred {A} o.

(** The sentinel a cancelled prompt rejects with. *)
Definition cancel : JSValue := JSString "cancel".

(** [showError] with a string. *)
Definition showError (message : string) : list Report :=
  [ShowErrorMessage message].

Section Pipelines.

(** [J.Model.Input] and the paths and contents of notes. *)
Variables Input Path Content : Type.

(** The collaborators behind [this.ctrl]; [pathSettlesFirst input] tells
    whether the path of a note is settled before its content is. *)
Record Ctrl : Type := mkCtrl {
  newInput : Input;
  withOffset : Input -> Z -> Input;
  offset : Input -> Z;
  ui_getUserInput : string -> Promise string;
  ui_showDocument : TextDocument -> Promise TextEditor;
  parser_parseInput : string -> Promise Input;
  parser_resolveNotePathForInput : Input -> Promise Path;
  inject_buildNoteContent : Input -> Promise Content;
  inject_injectInput : TextDocument -> Input -> Promise TextDocument;
  reader_loadNote : Path -> Content -> Promise TextDocument;
  reader_loadEntryForOffset : Z -> Promise TextDocument;
  pathSettlesFirst : Input -> bool
}.

Variable ctrl : Ctrl.

Definition loadPageForInput (input : Input) : Promise TextDocument :=
  andThen (reader_loadEntryForOffset ctrl (offset ctrl input))
    (fun doc => inject_injectInput ctrl doc input).

(** The chain of [processInput] up to [showDocument]. *)
Definition processInputChain : Promise TextEditor :=
  andThen (andThen (andThen
    (ui_getUserInput ctrl "Enter day or memo (with flags) ")
    (fun inputString => parser_parseInput ctrl inputString))
    (fun input => loadPageForInput input))
    (fun document => ui_showDocument ctrl document).

Definition processInput : Outcome TextEditor :=
  match processInputChain with
  | Fulfilled editor => mkOutcome [] (Some (Fulfilled editor))
  | RejectedWith error =>
      if looseNotEqualString error "cancel"
      then mkOutcome [UtilError "Failed to process input."]
                     (Some (RejectedWith error))
      else mkOutcome [] None
  end.

Definition showNoteChain : Promise TextEditor :=
  andThen (andThen (andThen (andThen
    (ui_getUserInput ctrl "Enter title for new note")
    (fun inputString => parser_parseInput ctrl inputString))
    (fun input => Q_all (pathSettlesFirst ctrl input)
                        (parser_resolveNotePathForInput ctrl input)
                        (inject_buildNoteContent ctrl input)))
    (fun '(path, content) => reader_loadNote ctrl path content))
    (fun doc => ui_showDocument ctrl doc).

Definition showNote : Outcome TextEditor :=
  match showNoteChain with
  | Fulfilled editor => mkOutcome [] (Some (Fulfilled editor))
  | RejectedWith reason =>
      mkOutcome
        (if looseNotEqualString reason "cancel"
         then ConsoleError "Failed to get file, Reason: " reason
                :: showError "Failed to create and load notes"
         else [])
        (Some (RejectedWith reason))
  end.

Definition showEntryChain (n : Z) : Promise TextEditor :=
  let input := withOffset ctrl (newInput ctrl) n in
  andThen (loadPageForInput input)
    (fun doc => ui_showDocument ctrl doc).

Definition showEntry (n : Z) : Outcome TextEditor :=
  match showEntryChain n with
  | Fulfilled editor => mkOutcome [] (Some (Fulfilled editor))
  | RejectedWith error =>
      mkOutcome
        (if looseNotEqualString error "cancel"
         then [ConsoleError "Failed to get file, Reason: " error]
         else [])
        (Some (RejectedWith error))
  end.

End Pipelines.

(* ================================================================== *)
(** * [printTime] *)
(* ================================================================== *)

(** The template of the time string, of the configuration. *)
Record FileTemplate : Type := mkFileTemplate { template : string }.

(** [editor.selection]: the first of the selections. *)
Definition selection (editor : TextEditor) : option Selection :=
  hd_error (selections editor).

Section PrintTime.

(** [J.Util.formatDate date template locale], with the date in
    milliseconds. *)
Variable formatDate : Z -> string -> string -> string.

(** The second handler of the chain: it reads the cursor of the editor and
    injects the string. *)
Definition printTimeInject (editor : option TextEditor) (str : string)
  : Exec unit :=
  match editor with
  | None =>
      throw (JSTypeError "Cannot read property 'selection' of undefined")
  | Some editor =>
      match selection editor with
      | None =>
          throw (JSTypeError "Cannot read property 'active' of undefined")
      | Some currentSelection =>
          injectString (document editor) str (active currentSelection)
      end
  end.

(** [printTime]: the executor starts the chain and calls neither [resolve]
    nor [reject]; [now] is [new Date()]. *)
Definition printTime (editor : option TextEditor)
    (getTimeStringTemplate : Promise FileTemplate) (getLocale : string)
    (now : Z) : Run :=
  match andThen getTimeStringTemplate
          (fun tpl => Fulfilled (formatDate now (template tpl) getLocale)) with
  | Fulfilled str => runExecutor (printTimeInject editor str)
  | RejectedWith _ => pending
  end.

End PrintTime.

(* ================================================================== *)
(** * A model of the moment parser *)
(* ================================================================== *)

(** The lenient (non-strict) parser [moment(text, format)] for formats made
    of the hour tokens [H], [HH], [h], [hh], the minute tokens [m], [mm], the
    glued tokens [Hmm], [hmm] and literal punctuation.  The parser walks the
    tokens of the format; each token consumes the first match of its pattern
    in what is left of the text and skips what precedes it.  The moment is
    valid when a token has read something and hour and minute are in range.
    It is the clock time read, on the current day. *)
Module MomentModel.

Inductive Token : Type :=
| THour
| TMinute
| THourMinute
| TLiteral (c : ascii).

Definition isLetter (c : ascii) : bool :=
  let n := nat_of_ascii c in
  ((65 <=? n) && (n <=? 90) || (97 <=? n) && (n <=? 122))%nat.

Definition isHourLetter (c : ascii) : bool :=
  Ascii.eqb c "H" || Ascii.eqb c "h".

(** The tokens of a format, the glued token before the hour token as in the
    token pattern of the library; [None] for a format outside the model
    (another letter, an escape). *)
Fixpoint tokenize (l : list ascii) : option (list Token) :=
  match l with
  | [] => Some []
  | c :: r =>
      if isHourLetter c then
        match r with
        | "m"%char :: "m"%char :: r2 =>
            option_map (cons THourMinute) (tokenize r2)
        | c2 :: r2 =>
            if Ascii.eqb c2 c
            then option_map (cons THour) (tokenize r2)
            else option_map (cons THour) (tokenize r)
        | [] => Some [THour]
        end
      else if Ascii.eqb c "m" then
        match r with
        | "m"%char :: r2 => option_map (cons TMinute) (tokenize r2)
        | _ => option_map (cons TMinute) (tokenize r)
        end
      else if isLetter c || Ascii.eqb c "[" || Ascii.eqb c "\"
      then None
      else option_map (cons (TLiteral c)) (tokenize r)
  end.

(** At most [n] digits at the front of [l], and the rest. *)
Fixpoint takeDigits (n : nat) (l : list ascii) : list ascii * list ascii :=
  match n, l with
  | S n', c :: r =>
      if isDigit c
      then let (ds, rest) := takeDigits n' r in (c :: ds, rest)
      else ([], l)
  | _, _ => ([], l)
  end.

(** The first match of [\d\d?]. *)
Fixpoint match1to2 (l : list ascii) : option (list ascii * list ascii) :=
  match l with
  | [] => None
  | c :: r =>
      if isDigit c
      then let (ds, rest) := takeDigits 1 r in Some (c :: ds, rest)
      else match1to2 r
  end.

(** The first match of [\d\d\d\d?]. *)
Fixpoint match3to4 (l : list ascii) : option (list ascii * list ascii) :=
  match l with
  | [] => None
  | a :: t =>
      match t with
      | b :: c :: r =>
          if isDigit a && isDigit b && isDigit c
          then let (ds, rest) := takeDigits 1 r in
               Some (a :: b :: c :: ds, rest)
          else match3to4 t
      | _ => None
      end
  end.

(** What follows the first occurrence of [c]. *)
Fixpoint skipTo (c : ascii) (l : list ascii) : option (list ascii) :=
  match l with
  | [] => None
  | x :: r => if Ascii.eqb x c then Some r else skipTo c r
  end.

Definition toInt (ds : list ascii) : nat :=
  fold_left (fun acc c => (10 * acc + (nat_of_ascii c - 48))%nat) ds 0%nat.

Record Parsing : Type := mkParsing {
  input : list ascii;
  hours : nat;
  minutes : nat;
  empty : bool
}.

Definition parseToken (p : Parsing) (t : Token) : Parsing :=
  match t with
  | THour =>
      match match1to2 (input p) with
      | Some (ds, rest) => mkParsing rest (toInt ds) (minutes p) false
      | None => p
      end
  | TMinute =>
      match match1to2 (input p) with
      | Some (ds, rest) => mkParsing rest (hours p) (toInt ds) false
      | None => p
      end
  | THourMinute =>
      match match3to4 (input p) with
      | Some (ds, rest) =>
          let pos := (List.length ds - 2)%nat in
          mkParsing rest (toInt (firstn pos ds)) (toInt (skipn pos ds)) false
      | None => p
      end
  | TLiteral c =>
      match skipTo c (input p) with
      | Some rest => mkParsing rest (hours p) (minutes p) (empty p)
      | None => p
      end
  end.

(** Hour 24 is accepted with minute 0 and is the start of the next day. *)
Definition overflow (p : Parsing) : bool :=
  ((24 <? hours p) || (hours p =? 24) && negb (minutes p =? 0)
   || (59 <? minutes p))%nat.

Section Today.

(** The start of the current day, in milliseconds since the epoch.  The
    library reads it from the clock and the time zone of the machine. *)
Variable today : Z.

(** The clock time [h]:[m] of the day, on a day of 24 hours: a day on which
    the zone changes its offset is outside the model. *)

Definition clock (h m : nat) : Moment :=
  ValidMoment (today + Z.of_nat h * 3600000 + Z.of_nat m * 60000).

Definition moment (text format : string) : Moment :=
  match tokenize (list_ascii_of_string format) with
  | None => InvalidMoment
  | Some tokens =>
      let p := fold_left parseToken tokens
                 (mkParsing (list_ascii_of_string text) 0 0 true) in
      if empty p || overflow p then InvalidMoment
      else clock (hours p) (minutes p)
  end.

End Today.

End MomentModel.

(* ================================================================== *)
(** * A model of binary64 rounding *)
(* ================================================================== *)

(** Rounding to the nearest number with a 53 bit significand, ties to the
    even significand.  The exponent is not bounded: the quotients and
    differences of the command stay far from the subnormal numbers and from
    overflow. *)
Module Binary64.

(** The integer nearest to [a / b] for [0 <= a] and [0 < b]. *)
Definition roundHalfEven (a b : Z) : Z :=
  let k := a / b in
  let r := a mod b in
  if 2 * r <? b then k
  else if b <? 2 * r then k + 1
  else if Z.even k then k else k + 1.

(** [n / d] divided by [2 ^ e], as a fraction. *)
Definition scale (n d e : Z) : Z * Z :=
  if 0 <=? e then (n, d * 2 ^ e) else (n * 2 ^ (- e), d).

(** The exponent [e] with [2^52 <= (n / d) / 2^e < 2^53]. *)
Definition exponent (n d : Z) : Z :=
  let e0 := Z.log2 n - Z.log2 d - 53 in
  let (a, b) := scale n d e0 in
  if a <? b * 2 ^ 53 then e0 else e0 + 1.

Definition roundPositive (n d : Z) : Q :=
  let e := exponent n d in
  let (a, b) := scale n d e in
  let m := roundHalfEven a b in
  if 0 <=? e then inject_Z (m * 2 ^ e) else Qmake m (Z.to_pos (2 ^ (- e))).

Definition fl (q : Q) : Q :=
  match Qnum q with
  | Z0 => 0%Q
  | Zpos n => roundPositive (Zpos n) (Zpos (Qden q))
  | Zneg n => (- roundPositive (Zpos n) (Zpos (Qden q)))%Q
  end.

(** Magnitudes of 10^21 and more are not reached by the command; their
    exponent notation is left out of the model. *)
Definition numberToString (q : Q) : string := "1e+21"%string.

End Binary64.

(* ================================================================== *)
(** * Example documents *)
(* ================================================================== *)

Module Sample.

Definition positionEqb (p q : Position) : bool :=
  ((line p =? line q) && (character p =? character q))%nat.

Definition rangeEqb (r s : Range) : bool :=
  positionEqb (range_start r) (range_start s)
  && positionEqb (range_end r) (range_end s).

(** A position within a range of one line, its two ends included. *)
Definition contains (r : Range) (p : Position) : bool :=
  ((line (range_start r) =? line p) && (line (range_end r) =? line p)
   && (character (range_start r) <=? character p)
   && (character p <=? character (range_end r)))%nat.

(** A document given by the matches of [regExp] in its lines. *)
Definition documentOfWords (name : string) (words : list (Range * string))
  : TextDocument :=
  mkTextDocument name
    (fun p _ => option_map fst (find (fun w => contains (fst w) p) words))
    (fun r =>
       match find (fun w => rangeEqb (fst w) r) words with
       | Some w => snd w
       | None => ""%string
       end).

Definition at_ (l c : nat) : Selection :=
  mkSelection (mkPosition l c) (mkPosition l c).

Definition word (l c1 c2 : nat) (text : string) : Range * string :=
  (mkRange (mkPosition l c1) (mkPosition l c2), text).

(** Line 0 is [09:30-14:00], lines 1 and 2 are empty. *)
Definition workday : TextDocument :=
  documentOfWords "journal.md" [word 0 0 5 "09:30"; word 0 6 11 "14:00"].

(** Line 0 is [09:30-99:99], line 1 is empty. *)
Definition garbled : TextDocument :=
  documentOfWords "journal.md" [word 0 0 5 "09:30"; word 0 6 11 "99:99"].

(** Line 0 is [930-1400], line 1 is empty. *)
Definition glued : TextDocument :=
  documentOfWords "journal.md" [word 0 0 3 "930"; word 0 4 8 "1400"].

(** Line 0 is [09:30], lines 1 to 3 are empty. *)
Definition lonely : TextDocument :=
  documentOfWords "journal.md" [word 0 0 5 "09:30"].

(** Line 0 is [09:30-25:00], line 1 is empty. *)
Definition overlong : TextDocument :=
  documentOfWords "journal.md" [word 0 0 5 "09:30"; word 0 6 11 "25:00"].

(** Another file: line 0 is [09:30-14:00], line 1 is empty, line 3 is
    [17:45]. *)
Definition annotated : TextDocument :=
  documentOfWords "notes.md"
    [word 0 0 5 "09:30"; word 0 6 11 "14:00"; word 3 0 5 "17:45"].

(** The command with the models of the moment parser and of binary64
    arithmetic, on a day that starts at [today]. *)
Definition run (today : Z) (a : Ambient) : Run :=
  computeAndPrintDuration (MomentModel.moment today) Binary64.fl
    Binary64.numberToString a.

Definition ambient (doc : TextDocument) (sels : list Selection) : Ambient :=
  mkAmbient (Some (mkTextEditor doc sels)) "HH:mm".

(** Collaborators whose prompt is cancelled and whose reader gives up
    with the same sentinel; an input is reduced to its offset. *)
Definition cancellingCtrl : Ctrl Z string string :=
  mkCtrl Z string string
    0 (fun _ n => n) (fun input => input)
    (fun _ => RejectedWith cancel)
    (fun doc => Fulfilled (mkTextEditor doc []))
    (fun _ => Fulfilled 0)
    (fun _ => Fulfilled "notes/2018-03-05.md"%string)
    (fun _ => Fulfilled ""%string)
    (fun doc _ => Fulfilled doc)
    (fun _ _ => Fulfilled lonely)
    (fun _ => RejectedWith cancel)
    (fun _ => true).

(** Collaborators that all succeed: the entry of an offset is the work
    day, and the document shown gets no selection. *)
Definition workingCtrl : Ctrl Z string string :=
  mkCtrl Z string string
    0 (fun _ n => n) (fun input => input)
    (fun _ => Fulfilled "+1"%string)
    (fun doc => Fulfilled (mkTextEditor doc []))
    (fun _ => Fulfilled 1)
    (fun _ => Fulfilled "notes/2018-03-05.md"%string)
    (fun _ => Fulfilled ""%string)
    (fun doc _ => Fulfilled doc)
    (fun _ _ => Fulfilled lonely)
    (fun _ => Fulfilled workday)
    (fun _ => true).


(** Midnight of 2018-03-05 (UTC). *)
Definition monday : Z := 1520208000000.

(** Cursors in the first word, in the second word and on the empty
    line. *)
Definition threeCursors : list Selection := [at_ 0 2; at_ 0 8; at_ 1 0].

Definition workdayAmbient : Ambient := ambient workday threeCursors.
Definition garbledAmbient : Ambient := ambient garbled threeCursors.
Definition overlongAmbient : Ambient := ambient overlong threeCursors.

(** Cursors in the only word and on two empty lines. *)
Definition lonelyAmbient : Ambient :=
  ambient lonely [at_ 0 2; at_ 1 0; at_ 2 0].

(** Cursors in the two glued words and on the empty line. *)
Definition gluedAmbient : Ambient :=
  ambient glued [at_ 0 1; at_ 0 6; at_ 1 0].

End Sample.

(* ================================================================== *)
(** * Specification vocabulary *)
(* ================================================================== *)

(** The selections without a word of the pattern under the cursor (the
    Targets of the specification). *)
Definition isTarget (doc : TextDocument) (s : Selection) : bool :=
  match getWordRangeAtPosition doc (active s) regExp with
  | None => true
  | Some _ => false
  end.

Definition targets (doc : TextDocument) (sels : list Selection)
  : list Selection :=
  filter (isTarget doc) sels.

Fixpoint lastOf {A} (l : list A) : option A :=
  match l with
  | [] => None
  | [x] => Some x
  | _ :: r => lastOf r
  end.

(** The promise and the injections the command ends with, from the locals
    the loop has left. *)
Definition conclusion (doc : TextDocument) (format : Moment -> Moment -> string)
    (l : Locals) : Run :=
  match start l, end_ l, target l with
  | None, _, _ => mkRun [] (Some (Rejected (JSString noStartMessage)))
  | Some _, None, _ => mkRun [] (Some (Rejected (JSString noEndMessage)))
  | Some _, Some _, None =>
      mkRun [] (Some (Rejected (JSString noTargetMessage)))
  | Some s, Some e, Some t =>
      mkRun [mkInjection doc (format s e) t] (Some Resolved)
  end.


(** The locals are in order: [end] is set only after [start], and [start]
    is not after [end]. *)
Definition orderedLocals (l : Locals) : Prop :=
  (start l = None -> end_ l = None)
  /\ (forall s e, start l = Some s -> end_ l = Some e -> isAfter s e = false).

(** The settlement the editor, the number of its selections and the number
    of Targets among them call for. *)
Definition settlementFor (a : Ambient) : Settlement :=
  match activeTextEditor a with
  | None => Rejected undefinedEditorError
  | Some editor =>
      if (List.length (selections editor) =? 3)%nat then
        match List.length (targets (document editor) (selections editor)) with
        | 0%nat => Rejected (JSString noTargetMessage)
        | 1%nat => Resolved
        | 2%nat => Rejected (JSString noEndMessage)
        | _ => Rejected (JSString noStartMessage)
        end
      else Rejected (JSError selectionCountMessage)
  end.

(** The ways the command settles its promise. *)
Definition settlements : list Settlement :=
  [Resolved;
   Rejected (JSError selectionCountMessage);
   Rejected undefinedEditorError;
   Rejected (JSString noStartMessage);
   Rejected (JSString noEndMessage);
   Rejected (JSString noTargetMessage)].

(** Fixed notation with [f] fraction digits: digits, at least one, a point,
    and [f] digits. *)
Fixpoint fractionShape (f : nat) (l : list ascii) : bool :=
  match f, l with
  | O, [] => true
  | S f', c :: r => isDigit c && fractionShape f' r
  | _, _ => false
  end.

Fixpoint fixedShapeFrom (seen : bool) (f : nat) (l : list ascii) : bool :=
  match l with
  | [] => false
  | c :: r =>
      if Ascii.eqb c "."%char then seen && fractionShape f r
      else isDigit c && fixedShapeFrom true f r
  end.

Definition isFixedNotation (f : nat) (s : string) : bool :=
  fixedShapeFrom false f (list_ascii_of_string s).

(** The digits of a string in fixed notation, the point taken out. *)
Definition withoutPoint (s : string) : list ascii :=
  filter (fun c => negb (Ascii.eqb c "."%char)) (list_ascii_of_string s).

(** Two documents show the same words to the command at the cursors of
    [sels]. *)
Definition sameWordsAt (d1 d2 : TextDocument) (sels : list Selection) : Prop :=
  forall s, In s sels ->
    getWordRangeAtPosition d1 (active s) regExp
    = getWordRangeAtPosition d2 (active s) regExp
    /\ forall r, getWordRangeAtPosition d1 (active s) regExp = Some r ->
                 getText d1 r = getText d2 r.

(** Binary64 arithmetic rounds to a nearest number: on zero and on the
    magnitudes between 2^-64 and 2^64, well inside the normal range, the
    error of [fl] is at most 2^-53 of the exact result. *)
Definition unitRoundoff : Q := 1 # 2 ^ 53.

Definition roundsToNearest (fl : Q -> Q) : Prop :=
  forall q : Q,
    (q == 0 \/ (1 # 2 ^ 64) <= Qabs q <= inject_Z (2 ^ 64))%Q ->
    (Qabs (fl q - q) <= Qabs q * unitRoundoff)%Q.

(** Two states of the moment parser (of the clock and the zone it reads)
    give the same times to the words of [doc] at the cursors of [sels]. *)
Definition sameTimesAt (moment1 moment2 : string -> string -> Moment)
    (doc : TextDocument) (tpl : string) (sels : list Selection) : Prop :=
  forall s r, In s sels ->
    getWordRangeAtPosition doc (active s) regExp = Some r ->
    parseTime moment1 (getText doc r) tpl
    = parseTime moment2 (getText doc r) tpl.

(** An injection without the document it went to. *)
Definition written (r : Run) : list (string * Position) :=
  map (fun i => (inj_text i, inj_position i)) (injected r).

(* ================================================================== *)
(** * The executor, step by step *)
(* ================================================================== *)

Lemma lastOf_cons {A} (x : A) (l : list A) :
  lastOf (x :: l)
  = match lastOf l with
    | Some y => Some y
    | None => Some x
    end.
Proof.
  destruct l as [|y l]; [reflexivity|].
  cbn [lastOf]. destruct l as [|z l]; [reflexivity|].
  destruct (lastOf (z :: l)) eqn:E; [reflexivity|].
  exfalso. clear -E. revert z E.
  induction l as [|b l IH]; intros z E; [discriminate|].
  cbn [lastOf] in E. exact (IH b E).
Qed.

Section CommandFacts.

Variable moment : string -> string -> Moment.
Variable fl : Q -> Q.
Variable numberToString : Q -> string.

Local Notation "'command'" :=
  (computeAndPrintDuration moment fl numberToString).
Local Notation "'format'" := (formatDuration fl numberToString).

Lemma command_no_editor (a : Ambient) :
  activeTextEditor a = None ->
  command a = mkRun [] (Some (Rejected undefinedEditorError)).
Proof.
  intros H. unfold computeAndPrintDuration, runExecutor, tryCatch,
    durationBody, bind.
  rewrite H. reflexivity.
Qed.

Lemma command_wrong_count (a : Ambient) (editor : TextEditor) :
  activeTextEditor a = Some editor ->
  List.length (selections editor) <> 3%nat ->
  command a = mkRun [] (Some (Rejected (JSError selectionCountMessage))).
Proof.
  intros H Hn. unfold computeAndPrintDuration, runExecutor, tryCatch,
    durationBody, bind.
  rewrite H. cbn [ret].
  apply Nat.eqb_neq in Hn. rewrite Hn. reflexivity.
Qed.

Lemma command_three (a : Ambient) (editor : TextEditor) :
  activeTextEditor a = Some editor ->
  List.length (selections editor) = 3%nat ->
  command a
  = conclusion (document editor) format
      (classify moment editor (getTimeString a)).
Proof.
  intros H Hn. unfold computeAndPrintDuration, runExecutor, tryCatch,
    durationBody, bind.
  rewrite H. cbn [ret].
  apply Nat.eqb_eq in Hn. rewrite Hn. cbn [negb].
  unfold conclusion.
  destruct (start _) as [s|]; [|reflexivity].
  destruct (end_ _) as [e|]; [|reflexivity].
  destruct (target _) as [t|]; reflexivity.
Qed.

(** The settlement and the injections of a conclusion. *)
Lemma conclusion_atomic (doc : TextDocument) (l : Locals) :
  match settled (conclusion doc format l) with
  | Some Resolved => exists i, injected (conclusion doc format l) = [i]
  | Some (Rejected _) => injected (conclusion doc format l) = []
  | None => False
  end.
Proof.
  unfold conclusion.
  destruct (start l), (end_ l), (target l); cbn; eauto.
Qed.

(** The command settles in one of six ways. *)
Lemma command_settlements (a : Ambient) :
  exists s, settled (command a) = Some s /\ In s settlements.
Proof.
  destruct (activeTextEditor a) as [editor|] eqn:He.
  - destruct (Nat.eq_dec (List.length (selections editor)) 3) as [Hn|Hn].
    + rewrite (command_three _ _ He Hn). unfold conclusion, settlements.
      destruct (classify moment editor (getTimeString a))
        as [[s|] [e|] [t|]]; cbn; eauto 10.
    + rewrite (command_wrong_count _ _ He Hn). unfold settlements.
      cbn; eauto 10.
  - rewrite (command_no_editor _ He). unfold settlements. cbn; eauto 10.
Qed.

(** The loop assigns [end] only after [start]. *)
Lemma forEach_end_after_start (doc : TextDocument) (tpl : string)
    (sels : list Selection) (l : Locals) :
  (start l = None -> end_ l = None) ->
  start (fold_left (forEachBody moment doc tpl) sels l) = None ->
  end_ (fold_left (forEachBody moment doc tpl) sels l) = None.
Proof.
  revert l. induction sels as [|s sels IH]; intros l Hl; cbn [fold_left].
  - exact Hl.
  - apply IH. unfold forEachBody.
    destruct (getWordRangeAtPosition doc (active s) regExp); cbn.
    + destruct (start l) as [m|]; [|discriminate].
      destruct (isAfter m _); discriminate.
    + exact Hl.
Qed.

(** The last Target is the one the loop keeps. *)
Lemma forEach_target (doc : TextDocument) (tpl : string)
    (sels : list Selection) (l : Locals) :
  target (fold_left (forEachBody moment doc tpl) sels l)
  = match lastOf (targets doc sels) with
    | Some s => Some (active s)
    | None => target l
    end.
Proof.
  revert l. induction sels as [|s sels IH]; intros l; cbn [fold_left].
  - reflexivity.
  - rewrite IH. unfold targets. cbn [filter]. unfold isTarget at 2.
    unfold forEachBody.
    destruct (getWordRangeAtPosition doc (active s) regExp) eqn:E.
    + destruct (lastOf _); [reflexivity|].
      destruct (start l) as [m|]; [destruct (isAfter m _)|]; reflexivity.
    + rewrite lastOf_cons. destruct (lastOf _); reflexivity.
Qed.

End CommandFacts.

(* ================================================================== *)
(** * Failures of the duration command *)
(* ================================================================== *)

(** C3. With a number of selections other than three the command fails with
    the selection-count error (the [Error] thrown before the loop and handed
    to [reject] by the [catch] block), and nothing is injected: there is no
    partial result. *)
Theorem selection_count_rejected
    (moment : string -> string -> Moment) (fl : Q -> Q)
    (numberToString : Q -> string) (a : Ambient) (editor : TextEditor) :
  activeTextEditor a = Some editor ->
  List.length (selections editor) <> 3%nat ->
  settled (computeAndPrintDuration moment fl numberToString a)
  = Some (Rejected (JSError selectionCountMessage))
  /\ injected (computeAndPrintDuration moment fl numberToString a) = [].
Proof.
  intros He Hn. rewrite (command_wrong_count _ _ _ _ _ He Hn). split; reflexivity.
Qed.

Lemma selection_count_rejected_witness :
  (settled (Sample.run Sample.monday
     (Sample.ambient Sample.workday [Sample.at_ 0 2; Sample.at_ 0 8]))
   = Some (Rejected (JSError selectionCountMessage))
   /\ injected (Sample.run Sample.monday
        (Sample.ambient Sample.workday [Sample.at_ 0 2; Sample.at_ 0 8]))
      = [])
  /\ (settled (Sample.run Sample.monday
        (Sample.ambient Sample.workday
           [Sample.at_ 0 2; Sample.at_ 0 8; Sample.at_ 1 0;
            Sample.at_ 2 0]))
      = Some (Rejected (JSError selectionCountMessage))
      /\ injected (Sample.run Sample.monday
           (Sample.ambient Sample.workday
              [Sample.at_ 0 2; Sample.at_ 0 8; Sample.at_ 1 0;
               Sample.at_ 2 0]))
         = []).
Proof.
  split.
  - apply (selection_count_rejected (MomentModel.moment Sample.monday)
             Binary64.fl Binary64.numberToString
             (Sample.ambient Sample.workday
                [Sample.at_ 0 2; Sample.at_ 0 8])
             (mkTextEditor Sample.workday
                [Sample.at_ 0 2; Sample.at_ 0 8])).
    + reflexivity.
    + simpl. lia.
  - apply (selection_count_rejected (MomentModel.moment Sample.monday)
             Binary64.fl Binary64.numberToString
             (Sample.ambient Sample.workday
                [Sample.at_ 0 2; Sample.at_ 0 8; Sample.at_ 1 0;
                 Sample.at_ 2 0])
             (mkTextEditor Sample.workday
                [Sample.at_ 0 2; Sample.at_ 0 8; Sample.at_ 1 0;
                 Sample.at_ 2 0])).
    + reflexivity.
    + simpl. lia.
Defined.

Section InjectionFacts.

Variable moment : string -> string -> Moment.
Variable fl : Q -> Q.
Variable numberToString : Q -> string.
Variable injectThrows : TextDocument -> string -> Position -> option JSValue.




End InjectionFacts.

(** With an [injectString] that returns, the command is
    [computeAndPrintDuration]. *)
Lemma command_with_returning_inject
    (moment : string -> string -> Moment) (fl : Q -> Q)
    (numberToString : Q -> string) (a : Ambient) :
  computeAndPrintDurationWith moment fl numberToString (fun _ _ _ => None) a
  = computeAndPrintDuration moment fl numberToString a.
Proof.
  reflexivity.
Qed.



(** C6. After the loop the command checks [start], then [end], then
    [target], and rejects with the message of the first one that is not set:
    "No valid start time selected" (MissingStart), "No valid end time
    selected" (MissingEnd), "No valid target selected for printing the
    duration." (MissingTarget).  The three reasons differ from each other and
    from the errors the [catch] block hands on, and nothing is injected. *)
Theorem missing_parts_rejected_distinctly
    (moment : string -> string -> Moment) (fl : Q -> Q)
    (numberToString : Q -> string) (a : Ambient) (editor : TextEditor) :
  activeTextEditor a = Some editor ->
  List.length (selections editor) = 3%nat ->
  let l := classify moment editor (getTimeString a) in
  let r := computeAndPrintDuration moment fl numberToString a in
  (start l = None ->
     r = mkRun [] (Some (Rejected (JSString noStartMessage))))
  /\ (start l <> None -> end_ l = None ->
        r = mkRun [] (Some (Rejected (JSString noEndMessage))))
  /\ (start l <> None -> end_ l <> None -> target l = None ->
        r = mkRun [] (Some (Rejected (JSString noTargetMessage))))
  /\ (start l <> None -> end_ l <> None -> target l <> None ->
        settled r = Some Resolved)
  /\ JSString noStartMessage <> JSString noEndMessage
  /\ JSString noStartMessage <> JSString noTargetMessage
  /\ JSString noEndMessage <> JSString noTargetMessage
  /\ (forall m reason,
        In m [noStartMessage; noEndMessage; noTargetMessage] ->
        In reason [JSError selectionCountMessage; undefinedEditorError] ->
        JSString m <> reason).
Proof.
  intros He Hn l r. subst r. rewrite (command_three _ _ _ _ _ He Hn).
  fold l. unfold conclusion.
  repeat split.
  - intros ->. reflexivity.
  - intros Hs ->. destruct (start l); [reflexivity|contradiction].
  - intros Hs Hen ->. destruct (start l); [|contradiction].
    destruct (end_ l); [reflexivity|contradiction].
  - intros Hs Hen Ht. destruct (start l); [|contradiction].
    destruct (end_ l); [|contradiction].
    destruct (target l); [reflexivity|contradiction].
  - discriminate.
  - discriminate.
  - discriminate.
  - intros m reason _ [<-|[<-|[]]]; discriminate.
Qed.

Lemma missing_parts_rejected_distinctly_witness :
  Sample.run Sample.monday
    (Sample.ambient Sample.lonely
       [Sample.at_ 1 0; Sample.at_ 2 0; Sample.at_ 3 0])
  = mkRun [] (Some (Rejected (JSString noStartMessage)))
  /\ Sample.run Sample.monday
       (Sample.ambient Sample.lonely
          [Sample.at_ 0 2; Sample.at_ 1 0; Sample.at_ 2 0])
     = mkRun [] (Some (Rejected (JSString noEndMessage)))
  /\ Sample.run Sample.monday
       (Sample.ambient Sample.workday
          [Sample.at_ 0 2; Sample.at_ 0 8; Sample.at_ 0 9])
     = mkRun [] (Some (Rejected (JSString noTargetMessage))).
Proof.
  split; [|split].
  - apply (missing_parts_rejected_distinctly
             (MomentModel.moment Sample.monday) Binary64.fl
             Binary64.numberToString
             (Sample.ambient Sample.lonely
                [Sample.at_ 1 0; Sample.at_ 2 0; Sample.at_ 3 0])
             _ eq_refl eq_refl).
    reflexivity.
  - apply (missing_parts_rejected_distinctly
             (MomentModel.moment Sample.monday) Binary64.fl
             Binary64.numberToString
             (Sample.ambient Sample.lonely
                [Sample.at_ 0 2; Sample.at_ 1 0; Sample.at_ 2 0])
             _ eq_refl eq_refl).
    + discriminate.
    + reflexivity.
  - apply (missing_parts_rejected_distinctly
             (MomentModel.moment Sample.monday) Binary64.fl
             Binary64.numberToString
             (Sample.ambient Sample.workday
                [Sample.at_ 0 2; Sample.at_ 0 8; Sample.at_ 0 9])
             _ eq_refl eq_refl).
    + discriminate.
    + discriminate.
    + reflexivity.
Defined.

(** C7. Of three selections, when two or more have no word of the pattern
    under the cursor (two or more Targets, at most one time candidate), the
    command rejects: with the missing-start message when all three are
    Targets, with the missing-end message when one time candidate is left.
    Nothing is injected.  The target variable holds the cursor of the last
    such selection: each one overwrites the one before. *)
Theorem surplus_targets_rejected
    (moment : string -> string -> Moment) (fl : Q -> Q)
    (numberToString : Q -> string) (a : Ambient) (editor : TextEditor) :
  activeTextEditor a = Some editor ->
  List.length (selections editor) = 3%nat ->
  (2 <= List.length (targets (document editor) (selections editor)))%nat ->
  let r := computeAndPrintDuration moment fl numberToString a in
  (List.length (targets (document editor) (selections editor)) = 3%nat ->
     r = mkRun [] (Some (Rejected (JSString noStartMessage))))
  /\ (List.length (targets (document editor) (selections editor)) = 2%nat ->
        r = mkRun [] (Some (Rejected (JSString noEndMessage))))
  /\ (exists reason, settled r = Some (Rejected (JSString reason))
                     /\ In reason [noStartMessage; noEndMessage])
  /\ injected r = []
  /\ (exists s, lastOf (targets (document editor) (selections editor)) = Some s
                /\ target (classify moment editor (getTimeString a))
                   = Some (active s)).
Proof.
  intros He Hn Ht r. subst r. rewrite (command_three _ _ _ _ _ He Hn).
  assert (Hlast : exists s,
             lastOf (targets (document editor) (selections editor)) = Some s).
  { destruct (targets (document editor) (selections editor)) as [|x t].
    - cbn in Ht. lia.
    - rewrite lastOf_cons. destruct (lastOf t); eauto. }
  destruct Hlast as [s Hs].
  assert (Htarget : target (classify moment editor (getTimeString a))
                    = Some (active s)).
  { unfold classify. rewrite forEach_target, Hs. reflexivity. }
  clear Hs.
  unfold classify in *. destruct editor as [doc sels]. cbn [document selections] in *.
  destruct sels as [|s1 [|s2 [|s3 [|s4 sels]]]]; try discriminate Hn.
  revert Ht Htarget. unfold targets, isTarget, conclusion.
  cbn [fold_left filter]. unfold forEachBody.
  destruct (getWordRangeAtPosition doc (active s1) regExp);
    destruct (getWordRangeAtPosition doc (active s2) regExp);
    destruct (getWordRangeAtPosition doc (active s3) regExp);
    cbn; intros Ht Htarget; try lia;
    (repeat split; try reflexivity; try discriminate; try (intros; lia);
     try (eexists; split; [reflexivity | cbn; tauto]);
     try (eexists; split; [reflexivity | exact Htarget])).
Qed.

Lemma surplus_targets_rejected_witness :
  Sample.run Sample.monday
    (Sample.ambient Sample.lonely
       [Sample.at_ 1 0; Sample.at_ 0 2; Sample.at_ 2 0])
  = mkRun [] (Some (Rejected (JSString noEndMessage)))
  /\ target (classify (MomentModel.moment Sample.monday)
               (mkTextEditor Sample.lonely
                  [Sample.at_ 1 0; Sample.at_ 0 2; Sample.at_ 2 0])
               "HH:mm")
     = Some (mkPosition 2 0).
Proof.
  pose proof
    (surplus_targets_rejected (MomentModel.moment Sample.monday)
       Binary64.fl Binary64.numberToString
       (Sample.ambient Sample.lonely
          [Sample.at_ 1 0; Sample.at_ 0 2; Sample.at_ 2 0])
       _ eq_refl eq_refl) as H.
  cbv zeta in H.
  destruct H as (_ & H2 & _ & _ & _).
  - apply le_n.
  - split; [apply H2; reflexivity | reflexivity].
Defined.

(* ================================================================== *)
(** * The two parses of a word *)
(* ================================================================== *)

(** The loop hands every word of the pattern to [parseTime], and to nothing
    else. *)
Lemma forEach_parses_word (moment : string -> string -> Moment)
    (doc : TextDocument) (tpl : string) (l : Locals) (s : Selection)
    (range : Range) :
  getWordRangeAtPosition doc (active s) regExp = Some range ->
  let time := parseTime moment (getText doc range) tpl in
  forEachBody moment doc tpl l s
  = match start l with
    | None => mkLocals (Some time) (end_ l) (target l)
    | Some s0 =>
        if isAfter s0 time
        then mkLocals (Some time) (Some s0) (target l)
        else mkLocals (Some s0) (Some time) (target l)
    end.
Proof.
  intros H. unfold forEachBody. rewrite H. reflexivity.
Qed.

(** C5. Every word of the pattern goes through [parseTime]: it is parsed
    with the configured format first; the glued format ["hmm"] is tried only
    when that parse is not valid, and its result is then taken as it is.
    With the model of the moment parser, the word ["930"] read with ["hmm"]
    is 09:30 of the day, so every configured format that cannot read
    ["930"] (as ["HH:mm"] cannot) ends at 09:30. *)
Theorem glued_format_is_the_retry
    (moment : string -> string -> Moment) (text tpl : string) (today : Z) :
  ((isValid (moment text tpl) = true ->
     parseTime moment text tpl = moment text tpl)
  /\ (isValid (moment text tpl) = false ->
        parseTime moment text tpl = moment text "hmm")
  /\ (forall doc l s range,
        getWordRangeAtPosition doc (active s) regExp = Some range ->
        getText doc range = text ->
        forEachBody moment doc tpl l s
        = match start l with
          | None => mkLocals (Some (parseTime moment text tpl)) (end_ l)
                      (target l)
          | Some s0 =>
              if isAfter s0 (parseTime moment text tpl)
              then mkLocals (Some (parseTime moment text tpl)) (Some s0)
                     (target l)
              else mkLocals (Some s0) (Some (parseTime moment text tpl))
                     (target l)
          end)
  /\ (isValid (MomentModel.moment today "930" tpl) = false ->
        parseTime (MomentModel.moment today) "930" tpl
        = MomentModel.clock today 9 30)
  /\ isValid (MomentModel.moment today "930" "HH:mm") = false
  /\ parseTime (MomentModel.moment today) "930" "HH:mm"
     = MomentModel.clock today 9 30)%string.
Proof.
  split; [|split; [|split; [|split; [|split]]]].
  - unfold parseTime. intros ->. reflexivity.
  - unfold parseTime. intros ->. reflexivity.
  - intros doc l s range Hw <-.
    apply (forEach_parses_word moment doc tpl l s range Hw).
  - unfold parseTime. intros ->. reflexivity.
  - reflexivity.
  - reflexivity.
Qed.

Lemma glued_format_is_the_retry_witness :
  parseTime (MomentModel.moment Sample.monday) "930" "HH:mm"
  = ValidMoment 1520242200000
  /\ parseTime (MomentModel.moment Sample.monday) "09:30" "HH:mm"
     = MomentModel.moment Sample.monday "09:30" "HH:mm"
  /\ written (Sample.run Sample.monday Sample.gluedAmbient)
     = [("4.50"%string, mkPosition 1 0)].
Proof.
  destruct (glued_format_is_the_retry (MomentModel.moment Sample.monday)
              "09:30" "HH:mm" Sample.monday) as (H1 & _ & _ & _ & _ & H5).
  split; [|split].
  - exact H5.
  - apply H1. reflexivity.
  - reflexivity.
Defined.

(* ================================================================== *)
(** * Cancelled pipelines *)
(* ================================================================== *)

(** A prompt that is cancelled ends each chain with the sentinel. *)
Lemma cancelled_prompt_ends_chains {Input Path Content : Type}
    (ctrl : Ctrl Input Path Content) :
  (forall prompt, ui_getUserInput _ _ _ ctrl prompt = RejectedWith cancel) ->
  processInputChain _ _ _ ctrl = RejectedWith cancel
  /\ showNoteChain _ _ _ ctrl = RejectedWith cancel.
Proof.
  intros H. unfold processInputChain, showNoteChain. rewrite !H.
  split; reflexivity.
Qed.

(** C8. When the chain of [processInput], [showNote] or [showEntry] ends
    with the sentinel ['cancel'], the handler reports nothing: no log entry
    and no error message.  [processInput] leaves its deferred unsettled;
    [showNote] and [showEntry] hand the sentinel itself on to their caller.
    Any other reason is reported. *)
Theorem cancel_is_not_reported {Input Path Content : Type}
    (ctrl : Ctrl Input Path Content) (n : Z) :
  (processInputChain _ _ _ ctrl = RejectedWith cancel ->
     processInput _ _ _ ctrl = mkOutcome [] None)
  /\ (showNoteChain _ _ _ ctrl = RejectedWith cancel ->
        showNote _ _ _ ctrl = mkOutcome [] (Some (RejectedWith cancel)))
  /\ (showEntryChain _ _ _ ctrl n = RejectedWith cancel ->
        showEntry _ _ _ ctrl n = mkOutcome [] (Some (RejectedWith cancel)))
  /\ (forall reason,
        looseNotEqualString reason "cancel" = true ->
        (processInputChain _ _ _ ctrl = RejectedWith reason ->
           reports (processInput _ _ _ ctrl) <> [])
        /\ (showNoteChain _ _ _ ctrl = RejectedWith reason ->
              reports (showNote _ _ _ ctrl) <> [])
        /\ (showEntryChain _ _ _ ctrl n = RejectedWith reason ->
              reports (showEntry _ _ _ ctrl n) <> [])).
Proof.
  unfold processInput, showNote, showEntry.
  split; [|split; [|split]].
  - intros ->. reflexivity.
  - intros ->. reflexivity.
  - intros ->. reflexivity.
  - intros reason Hr. repeat split; intros ->; rewrite Hr; discriminate.
Qed.

Lemma cancel_is_not_reported_witness :
  processInput _ _ _ Sample.cancellingCtrl = mkOutcome [] None
  /\ showNote _ _ _ Sample.cancellingCtrl
     = mkOutcome [] (Some (RejectedWith cancel))
  /\ showEntry _ _ _ Sample.cancellingCtrl (-1)
     = mkOutcome [] (Some (RejectedWith cancel)).
Proof.
  destruct (cancel_is_not_reported Sample.cancellingCtrl (-1))
    as (H1 & H2 & H3 & _).
  split; [|split].
  - apply H1. reflexivity.
  - apply H2. reflexivity.
  - apply H3. reflexivity.
Defined.

(* ================================================================== *)
(** * Start and end *)
(* ================================================================== *)

Lemma permutation_of_three {A} (l : list A) (a b c : A) :
  Permutation l [a; b; c] ->
  l = [a; b; c] \/ l = [a; c; b] \/ l = [b; a; c]
  \/ l = [c; a; b] \/ l = [b; c; a] \/ l = [c; b; a].
Proof.
  intros P.
  destruct (Permutation_vs_cons_inv P) as (l1 & l2 & ->).
  apply Permutation_sym, Permutation_cons_app_inv, Permutation_length_2_inv in P.
  destruct l1 as [|x [|y [|z l1]]]; cbn in *.
  - destruct P as [<-| <-]; tauto.
  - destruct P as [P|P]; injection P as <- <-; tauto.
  - destruct P as [P|P]; injection P as <- <- <-; tauto.
  - destruct P as [P|P]; apply (f_equal (@List.length A)) in P;
      cbn in P; rewrite length_app in P; cbn in P; lia.
Qed.

Section Ordering.

Variable moment : string -> string -> Moment.
Variables (doc : TextDocument) (tpl : string).
Variables (sa sb st : Selection) (ra rb : Range) (a b : Z).

Hypothesis word_a : getWordRangeAtPosition doc (active sa) regExp = Some ra.
Hypothesis time_a : parseTime moment (getText doc ra) tpl = ValidMoment a.
Hypothesis word_b : getWordRangeAtPosition doc (active sb) regExp = Some rb.
Hypothesis time_b : parseTime moment (getText doc rb) tpl = ValidMoment b.
Hypothesis no_word : getWordRangeAtPosition doc (active st) regExp = None.

(** Two valid times and a Target, in any order of selection. *)
Lemma classify_two_times (sels : list Selection) :
  Permutation sels [sa; sb; st] ->
  classify moment (mkTextEditor doc sels) tpl
  = mkLocals (Some (ValidMoment (Z.min a b)))
             (Some (ValidMoment (Z.max a b)))
             (Some (active st)).
Proof.
  intros P. apply permutation_of_three in P.
  unfold classify. cbn [document selections].
  destruct P as [->|[->|[->|[->|[->| ->]]]]];
    cbn [fold_left]; unfold forEachBody, noLocals;
    rewrite ?word_a, ?word_b, ?no_word; cbn [start end_ target];
    rewrite ?word_a, ?word_b, ?no_word, ?time_a, ?time_b;
    cbn [start end_ target isAfter];
    rewrite ?word_a, ?word_b, ?no_word, ?time_a, ?time_b;
    cbn [start end_ target isAfter];
    match goal with
    | |- context [?x <? ?y] => destruct (Z.ltb_spec x y)
    end;
    cbn [start end_ target];
    f_equal; f_equal; f_equal; lia.
Qed.

End Ordering.

(** C1. Two selections on words that parse as valid times and one selection
    without a word, in any order: [start] is the earlier of the two times and
    [end] the later, so [start <= end]; the command resolves and injects the
    formatted difference at the third selection.  Two orders of the same
    three selections (the two times swapped, in particular) give the same
    start and end and the same run, hence the same injected string. *)
Theorem swapped_selections_same_result
    (moment : string -> string -> Moment) (fl : Q -> Q)
    (numberToString : Q -> string)
    (doc : TextDocument) (tpl : string)
    (sa sb st : Selection) (ra rb : Range) (a b : Z)
    (sels sels' : list Selection) :
  getWordRangeAtPosition doc (active sa) regExp = Some ra ->
  parseTime moment (getText doc ra) tpl = ValidMoment a ->
  getWordRangeAtPosition doc (active sb) regExp = Some rb ->
  parseTime moment (getText doc rb) tpl = ValidMoment b ->
  getWordRangeAtPosition doc (active st) regExp = None ->
  Permutation sels [sa; sb; st] ->
  Permutation sels' [sa; sb; st] ->
  let command x :=
    computeAndPrintDuration moment fl numberToString
      (mkAmbient (Some (mkTextEditor doc x)) tpl) in
  classify moment (mkTextEditor doc sels) tpl
  = mkLocals (Some (ValidMoment (Z.min a b)))
             (Some (ValidMoment (Z.max a b)))
             (Some (active st))
  /\ Z.min a b <= Z.max a b
  /\ classify moment (mkTextEditor doc sels') tpl
     = classify moment (mkTextEditor doc sels) tpl
  /\ command sels
     = mkRun [mkInjection doc
                (formatDuration fl numberToString
                   (ValidMoment (Z.min a b)) (ValidMoment (Z.max a b)))
                (active st)]
             (Some Resolved)
  /\ command sels' = command sels.
Proof.
  intros Hwa Hta Hwb Htb Hn P P' command.
  pose proof (classify_two_times moment doc tpl sa sb st ra rb a b
                Hwa Hta Hwb Htb Hn) as C.
  assert (R : forall x, Permutation x [sa; sb; st] ->
            command x
            = mkRun [mkInjection doc
                       (formatDuration fl numberToString
                          (ValidMoment (Z.min a b)) (ValidMoment (Z.max a b)))
                       (active st)]
                    (Some Resolved)).
  { intros x Px. subst command. cbv beta.
    rewrite (command_three moment fl numberToString
               (mkAmbient (Some (mkTextEditor doc x)) tpl)
               (mkTextEditor doc x) eq_refl).
    - cbn [document getTimeString]. rewrite (C x Px). reflexivity.
    - apply Permutation_length in Px. exact Px. }
  repeat split.
  - apply C, P.
  - lia.
  - rewrite (C _ P), (C _ P'). reflexivity.
  - apply R, P.
  - rewrite (R _ P), (R _ P'). reflexivity.
Qed.

Lemma swapped_selections_same_result_witness :
  written (Sample.run Sample.monday
     (Sample.ambient Sample.workday
        [Sample.at_ 0 8; Sample.at_ 0 2; Sample.at_ 1 0]))
  = [("4.50"%string, mkPosition 1 0)]
  /\ Sample.run Sample.monday
       (Sample.ambient Sample.workday
          [Sample.at_ 0 2; Sample.at_ 0 8; Sample.at_ 1 0])
     = Sample.run Sample.monday
         (Sample.ambient Sample.workday
            [Sample.at_ 0 8; Sample.at_ 0 2; Sample.at_ 1 0]).
Proof.
  pose proof
    (swapped_selections_same_result (MomentModel.moment Sample.monday)
       Binary64.fl Binary64.numberToString Sample.workday "HH:mm"
       (Sample.at_ 0 2) (Sample.at_ 0 8) (Sample.at_ 1 0)
       (mkRange (mkPosition 0 0) (mkPosition 0 5))
       (mkRange (mkPosition 0 6) (mkPosition 0 11))
       1520242200000 1520258400000
       [Sample.at_ 0 8; Sample.at_ 0 2; Sample.at_ 1 0]
       [Sample.at_ 0 2; Sample.at_ 0 8; Sample.at_ 1 0]
       eq_refl eq_refl eq_refl eq_refl eq_refl
       (perm_swap _ _ _) (Permutation_refl _)) as H.
  cbv zeta in H. destruct H as (_ & _ & _ & H1 & H2).
  split.
  - unfold Sample.run, Sample.ambient. rewrite H1. vm_compute. reflexivity.
  - exact H2.
Defined.

(* ================================================================== *)
(** * Words that do not parse *)
(* ================================================================== *)

Lemma parseTime_invalid (moment : string -> string -> Moment)
    (text tpl : string) :
  isValid (moment text tpl) = false ->
  isValid (moment text "hmm"%string) = false ->
  parseTime moment text tpl = InvalidMoment.
Proof.
  intros H1 H2. unfold parseTime. rewrite H1. cbn.
  destruct (moment text "hmm"%string); [discriminate|reflexivity].
Qed.

Lemma formatDuration_invalid (fl : Q -> Q) (numberToString : Q -> string)
    (s e : Moment) :
  s = InvalidMoment \/ e = InvalidMoment ->
  formatDuration fl numberToString s e = "NaN"%string.
Proof.
  intros [-> | ->]; [|destruct s]; reflexivity.
Qed.

(** The check that is missing, in general.  Validity is tested before the
    retry with ["hmm"] and not after it, and the checks after the loop test
    for [undefined] only.  So a selection whose word matches the pattern but
    parses under neither format is handed on as an invalid time, to [start]
    when [start] is not set and to [end] otherwise (never to [target]); the
    command settles in one of the six ways of [settlements], none of which
    is for such a word; and with a valid time and a Target as the other two
    selections, in any order, nothing stops the command before it injects
    ["NaN"]. *)
Theorem undecodable_word_carried_forward
    (moment : string -> string -> Moment) (fl : Q -> Q)
    (numberToString : Q -> string)
    (doc : TextDocument) (tpl : string)
    (si sv st : Selection) (ri rv : Range) (v : Z)
    (sels : list Selection) :
  getWordRangeAtPosition doc (active si) regExp = Some ri ->
  isValid (moment (getText doc ri) tpl) = false ->
  isValid (moment (getText doc ri) "hmm"%string) = false ->
  getWordRangeAtPosition doc (active sv) regExp = Some rv ->
  parseTime moment (getText doc rv) tpl = ValidMoment v ->
  getWordRangeAtPosition doc (active st) regExp = None ->
  Permutation sels [si; sv; st] ->
  (forall l,
     target (forEachBody moment doc tpl l si) = target l
     /\ (start l = None ->
           start (forEachBody moment doc tpl l si) = Some InvalidMoment
           /\ end_ (forEachBody moment doc tpl l si) = end_ l)
     /\ (start l <> None ->
           start (forEachBody moment doc tpl l si) = start l
           /\ end_ (forEachBody moment doc tpl l si) = Some InvalidMoment))
  /\ (forall a, exists s,
        settled (computeAndPrintDuration moment fl numberToString a) = Some s
        /\ In s settlements)
  /\ computeAndPrintDuration moment fl numberToString
       (mkAmbient (Some (mkTextEditor doc sels)) tpl)
     = mkRun [mkInjection doc "NaN" (active st)] (Some Resolved).
Proof.
  intros Hwi Hi1 Hi2 Hwv Htv Hn P.
  pose proof (parseTime_invalid moment _ _ Hi1 Hi2) as Hti.
  split; [|split].
  - intros l. rewrite (forEach_parses_word moment doc tpl l si ri Hwi).
    cbv zeta. rewrite Hti.
    destruct (start l) as [s|].
    + replace (isAfter s InvalidMoment) with false by (destruct s; reflexivity).
      cbn. split; [reflexivity|]. split; [discriminate|]. split; reflexivity.
    + cbn. split; [reflexivity|]. split; [split; reflexivity|].
      intros Hs. contradiction.
  - intros a. apply command_settlements.
  - rewrite (command_three moment fl numberToString
               (mkAmbient (Some (mkTextEditor doc sels)) tpl)
               (mkTextEditor doc sels) eq_refl
               (Permutation_length P)).
    apply permutation_of_three in P.
    unfold classify. cbn [document selections getTimeString].
    destruct P as [->|[->|[->|[->|[->| ->]]]]];
      cbn [fold_left]; unfold forEachBody, noLocals;
      rewrite ?Hwi, ?Hwv, ?Hn; cbn [start end_ target];
      rewrite ?Hwi, ?Hwv, ?Hn, ?Hti, ?Htv;
      cbn [start end_ target isAfter];
      rewrite ?Hwi, ?Hwv, ?Hn, ?Hti, ?Htv;
      cbn [start end_ target isAfter];
      reflexivity.
Qed.

Lemma undecodable_word_carried_forward_witness :
  Sample.run Sample.monday
    (Sample.ambient Sample.garbled
       [Sample.at_ 0 8; Sample.at_ 0 2; Sample.at_ 1 0])
  = mkRun [mkInjection Sample.garbled "NaN" (mkPosition 1 0)]
          (Some Resolved).
Proof.
  apply (undecodable_word_carried_forward (MomentModel.moment Sample.monday)
           Binary64.fl Binary64.numberToString Sample.garbled "HH:mm"
           (Sample.at_ 0 8) (Sample.at_ 0 2) (Sample.at_ 1 0)
           (mkRange (mkPosition 0 6) (mkPosition 0 11))
           (mkRange (mkPosition 0 0) (mkPosition 0 5))
           1520242200000
           [Sample.at_ 0 8; Sample.at_ 0 2; Sample.at_ 1 0]
           eq_refl eq_refl eq_refl eq_refl eq_refl eq_refl
           (Permutation_refl _)).
Defined.

(** C2. The code at the failing input.  The word ["99:99"] matches the
    pattern and parses neither as ["HH:mm"] nor as ["hmm"]; the command
    should fail, and it does not: the invalid time is carried into [end],
    the promise resolves instead of being rejected, and ["NaN"] is written
    at the target. *)
Lemma undecodable_word_does_not_fail :
  getWordRangeAtPosition Sample.garbled (active (Sample.at_ 0 8)) regExp
  = Some (mkRange (mkPosition 0 6) (mkPosition 0 11))
  /\ getText Sample.garbled (mkRange (mkPosition 0 6) (mkPosition 0 11))
     = "99:99"%string
  /\ isValid (MomentModel.moment Sample.monday "99:99"
                (getTimeString Sample.garbledAmbient))
     = false
  /\ isValid (MomentModel.moment Sample.monday "99:99" "hmm") = false
  /\ settled (Sample.run Sample.monday Sample.garbledAmbient)
     = Some Resolved
  /\ written (Sample.run Sample.monday Sample.garbledAmbient)
     = [("NaN"%string, mkPosition 1 0)]
  /\ ~ (exists reason,
          settled (Sample.run Sample.monday Sample.garbledAmbient)
          = Some (Rejected reason)).
Proof.
  repeat split; try reflexivity.
  intros [reason H]. vm_compute in H. discriminate H.
Qed.

(* ================================================================== *)
(** * What the command reads and writes *)
(* ================================================================== *)

Lemma forEach_same_words (moment1 moment2 : string -> string -> Moment)
    (d1 d2 : TextDocument) (tpl : string) (sels : list Selection) :
  sameWordsAt d1 d2 sels ->
  sameTimesAt moment1 moment2 d1 tpl sels ->
  forall l,
    fold_left (forEachBody moment1 d1 tpl) sels l
    = fold_left (forEachBody moment2 d2 tpl) sels l.
Proof.
  induction sels as [|s sels IH]; intros H Hm l; [reflexivity|].
  cbn [fold_left].
  assert (E : forEachBody moment1 d1 tpl l s
              = forEachBody moment2 d2 tpl l s).
  { destruct (H s (or_introl eq_refl)) as [Hw Ht].
    unfold forEachBody. rewrite <- Hw.
    destruct (getWordRangeAtPosition d1 (active s) regExp) as [r|] eqn:Er;
      [|reflexivity].
    rewrite <- (Ht r eq_refl). cbv zeta.
    rewrite (Hm s r (or_introl eq_refl) Er). reflexivity. }
  rewrite E. apply IH.
  - intros s' Hs'. apply H. right. exact Hs'.
  - intros s' r Hs'. apply Hm. right. exact Hs'.
Qed.

(** C9, as the code has it.  The command takes no argument: it reads the
    active editor and the configured time format, it reads the clock and the
    time zone through the moment parser, and it calls [injectString]
    itself.  What it does is determined by what it reads: for the same
    selections and time format, two invocations whose documents show the
    same words at the cursors and whose parser gives these words the same
    times end with the same settlement and the same injected text at the
    same position, each into its own document; the text goes to the document
    of the active editor, and a resolved promise comes with one injection
    made by the command. *)
Theorem command_determined_by_words_read
    (moment1 moment2 : string -> string -> Moment) (fl : Q -> Q)
    (numberToString : Q -> string)
    (d1 d2 : TextDocument) (tpl : string) (sels : list Selection) :
  sameWordsAt d1 d2 sels ->
  sameTimesAt moment1 moment2 d1 tpl sels ->
  let r1 := computeAndPrintDuration moment1 fl numberToString
              (mkAmbient (Some (mkTextEditor d1 sels)) tpl) in
  let r2 := computeAndPrintDuration moment2 fl numberToString
              (mkAmbient (Some (mkTextEditor d2 sels)) tpl) in
  settled r1 = settled r2
  /\ written r1 = written r2
  /\ (forall i, In i (injected r1) -> inj_document i = d1)
  /\ (settled r1 = Some Resolved ->
        exists text p, injected r1 = [mkInjection d1 text p]).
Proof.
  intros H Hm r1 r2. subst r1 r2.
  destruct (Nat.eq_dec (List.length sels) 3) as [Hn|Hn].
  - rewrite (command_three moment1 fl numberToString
               (mkAmbient (Some (mkTextEditor d1 sels)) tpl)
               (mkTextEditor d1 sels) eq_refl Hn).
    rewrite (command_three moment2 fl numberToString
               (mkAmbient (Some (mkTextEditor d2 sels)) tpl)
               (mkTextEditor d2 sels) eq_refl Hn).
    unfold classify. cbn [document selections getTimeString].
    rewrite (forEach_same_words moment1 moment2 d1 d2 tpl sels H Hm).
    unfold conclusion, written.
    destruct (start _) as [s|]; [|cbn; intuition discriminate].
    destruct (end_ _) as [e|]; [|cbn; intuition discriminate].
    destruct (target _) as [t|]; [|cbn; intuition discriminate].
    cbn. repeat split.
    + intros i [<-|[]]. reflexivity.
    + intros _. eauto.
  - rewrite (command_wrong_count moment1 fl numberToString
               (mkAmbient (Some (mkTextEditor d1 sels)) tpl)
               (mkTextEditor d1 sels) eq_refl Hn).
    rewrite (command_wrong_count moment2 fl numberToString
               (mkAmbient (Some (mkTextEditor d2 sels)) tpl)
               (mkTextEditor d2 sels) eq_refl Hn).
    cbn. intuition discriminate.
Qed.

Lemma command_determined_by_words_read_witness :
  written (Sample.run Sample.monday
     (Sample.ambient Sample.annotated Sample.threeCursors))
  = written (Sample.run Sample.monday
      (Sample.ambient Sample.workday Sample.threeCursors))
  /\ written (Sample.run Sample.monday
        (Sample.ambient Sample.workday Sample.threeCursors))
     = [("4.50"%string, mkPosition 1 0)].
Proof.
  assert (H : sameWordsAt Sample.workday Sample.annotated
                Sample.threeCursors).
  { intros s [<-|[<-|[<-|[]]]]; (split; [reflexivity|]);
      intros r Hr; vm_compute in Hr;
      first [discriminate Hr | injection Hr as <-; reflexivity]. }
  assert (Hm : sameTimesAt (MomentModel.moment Sample.monday)
                 (MomentModel.moment Sample.monday) Sample.workday "HH:mm"
                 Sample.threeCursors).
  { intros s r _ _. reflexivity. }
  pose proof
    (command_determined_by_words_read
       (MomentModel.moment Sample.monday) (MomentModel.moment Sample.monday)
       Binary64.fl Binary64.numberToString Sample.workday Sample.annotated
       "HH:mm" Sample.threeCursors H Hm) as T.
  cbv zeta in T. destruct T as (_ & T & _ & _).
  split.
  - symmetry. exact T.
  - vm_compute. reflexivity.
Defined.

(** C9, as the specification has it, fails.  The command has no parameter,
    and called twice it resolves with one active editor and rejects with
    another; and it is the command, not its caller, that injects the string
    ["4.50"] at the third cursor. *)
Lemma command_reads_the_editor_and_writes :
  settled (Sample.run Sample.monday Sample.workdayAmbient)
  = Some Resolved
  /\ settled (Sample.run Sample.monday Sample.lonelyAmbient)
     = Some (Rejected (JSString noEndMessage))
  /\ Sample.run Sample.monday Sample.workdayAmbient
     <> Sample.run Sample.monday Sample.lonelyAmbient
  /\ injected (Sample.run Sample.monday Sample.workdayAmbient)
     = [mkInjection Sample.workday "4.50" (mkPosition 1 0)]
  /\ injected (Sample.run Sample.monday Sample.workdayAmbient) <> [].
Proof.
  repeat split; try reflexivity.
  - intros H. apply (f_equal settled) in H. vm_compute in H. discriminate H.
  - vm_compute. discriminate.
Qed.

(* ================================================================== *)
(** * Fixed notation *)
(* ================================================================== *)

Lemma digits_of_uint (d : Decimal.uint) :
  Forall (fun c => isDigit c = true)
    (list_ascii_of_string (NilEmpty.string_of_uint d)).
Proof.
  induction d; cbn; constructor; auto.
Qed.

Lemma to_uint_not_nil (n : N) : N.to_uint n <> Decimal.Nil.
Proof.
  destruct n as [|p]; [discriminate|]. apply DecimalPos.Unsigned.to_uint_nonnil.
Qed.

Lemma decimalDigits_nilempty (n : N) :
  decimalDigits n = list_ascii_of_string (NilEmpty.string_of_uint (N.to_uint n)).
Proof.
  unfold decimalDigits, NilZero.string_of_uint.
  pose proof (to_uint_not_nil n) as H.
  destruct (N.to_uint n); [contradiction|..]; reflexivity.
Qed.

Lemma decimalDigits_digits (n : N) :
  Forall (fun c => isDigit c = true) (decimalDigits n).
Proof.
  rewrite decimalDigits_nilempty. apply digits_of_uint.
Qed.

Lemma decimalDigits_not_nil (n : N) : decimalDigits n <> [].
Proof.
  rewrite decimalDigits_nilempty.
  pose proof (to_uint_not_nil n) as H.
  destruct (N.to_uint n); [contradiction|..]; discriminate.
Qed.

Lemma zeros_digits (k : nat) : Forall (fun c => isDigit c = true) (zeros k).
Proof.
  induction k; cbn; constructor; auto.
Qed.

Lemma paddedDigits_digits (f : nat) (n : N) :
  Forall (fun c => isDigit c = true) (paddedDigits f n).
Proof.
  unfold paddedDigits. destruct (_ <=? _)%nat.
  - apply Forall_app. split; [apply zeros_digits|apply decimalDigits_digits].
  - apply decimalDigits_digits.
Qed.

Lemma paddedDigits_length (f : nat) (n : N) :
  (f + 1 <= List.length (paddedDigits f n))%nat.
Proof.
  unfold paddedDigits.
  destruct (Nat.leb_spec (List.length (decimalDigits n)) f).
  - rewrite length_app. unfold zeros. rewrite repeat_length. lia.
  - lia.
Qed.

Lemma fixedDigits_split (f : nat) (n : N) :
  let m := paddedDigits (S f) n in
  let k := (List.length m - S f)%nat in
  fixedDigits (S f) n = firstn k m ++ "."%char :: skipn k m.
Proof.
  reflexivity.
Qed.

Lemma fractionShape_digits (l : list ascii) :
  Forall (fun c => isDigit c = true) l ->
  fractionShape (List.length l) l = true.
Proof.
  induction 1 as [|c l Hc Hl IH]; cbn; [reflexivity|].
  rewrite Hc, IH. reflexivity.
Qed.

Lemma fixedShape_digits (int frac : list ascii) (seen : bool) :
  Forall (fun c => isDigit c = true) int ->
  Forall (fun c => isDigit c = true) frac ->
  (seen = true \/ int <> []) ->
  fixedShapeFrom seen (List.length frac) (int ++ "."%char :: frac) = true.
Proof.
  intros Hi Hf. revert seen.
  induction Hi as [|c int Hc Hint IH]; intros seen Hs; cbn.
  - destruct Hs as [->|Hs]; [|contradiction].
    apply fractionShape_digits, Hf.
  - destruct (Ascii.eqb_spec c "."%char) as [->|_]; [discriminate Hc|].
    rewrite Hc. apply IH. left. reflexivity.
Qed.

(** The string of [toFixed] has the shape of fixed notation. *)
Lemma fixedDigits_shape (f : nat) (n : N) :
  isFixedNotation (S f) (string_of_list_ascii (fixedDigits (S f) n)) = true.
Proof.
  unfold isFixedNotation. rewrite list_ascii_of_string_of_list_ascii.
  rewrite fixedDigits_split. cbv zeta.
  pose proof (paddedDigits_digits (S f) n) as Hd.
  pose proof (paddedDigits_length (S f) n) as Hl.
  set (m := paddedDigits (S f) n) in *.
  set (k := (List.length m - S f)%nat).
  assert (Hk : List.length (skipn k m) = S f).
  { rewrite length_skipn. subst k. lia. }
  rewrite <- Hk at 1.
  apply fixedShape_digits.
  - rewrite <- (firstn_skipn k m) in Hd. apply Forall_app in Hd. tauto.
  - rewrite <- (firstn_skipn k m) in Hd. apply Forall_app in Hd. tauto.
  - right. intros E. apply (f_equal (@List.length ascii)) in E.
    rewrite length_firstn in E. cbn in E. subst k. lia.
Qed.

Lemma filter_digits (l : list ascii) :
  Forall (fun c => isDigit c = true) l ->
  filter (fun c => negb (Ascii.eqb c "."%char)) l = l.
Proof.
  induction 1 as [|c l Hc Hl IH]; cbn; [reflexivity|].
  destruct (Ascii.eqb_spec c "."%char) as [->|_]; [discriminate Hc|].
  cbn. rewrite IH. reflexivity.
Qed.

Lemma withoutPoint_fixedDigits (f : nat) (n : N) :
  withoutPoint (string_of_list_ascii (fixedDigits (S f) n))
  = paddedDigits (S f) n.
Proof.
  unfold withoutPoint. rewrite list_ascii_of_string_of_list_ascii.
  rewrite fixedDigits_split. cbv zeta.
  pose proof (paddedDigits_digits (S f) n) as Hd.
  set (m := paddedDigits (S f) n) in *.
  set (k := (List.length m - S f)%nat).
  rewrite <- (firstn_skipn k m) in Hd. apply Forall_app in Hd.
  destruct Hd as [H1 H2].
  rewrite filter_app. cbn. rewrite !filter_digits by assumption.
  apply firstn_skipn.
Qed.

Lemma string_of_zeros (k : nat) (d : Decimal.uint) :
  string_of_list_ascii
    (zeros k ++ list_ascii_of_string (NilEmpty.string_of_uint d))
  = NilEmpty.string_of_uint (Nat.iter k Decimal.D0 d).
Proof.
  induction k as [|k IH]; cbn.
  - apply string_of_list_ascii_of_string.
  - f_equal. exact IH.
Qed.

Lemma of_uint_zeros (k : nat) (d : Decimal.uint) :
  N.of_uint (Nat.iter k Decimal.D0 d) = N.of_uint d.
Proof.
  induction k as [|k IH]; [reflexivity|]. cbn. exact IH.
Qed.

(** The digits of the string, read back, are [n]. *)
Lemma paddedDigits_value (f : nat) (n : N) :
  digitsValue (paddedDigits f n) = Some n.
Proof.
  unfold digitsValue, paddedDigits. rewrite decimalDigits_nilempty.
  destruct (_ <=? _)%nat.
  - rewrite string_of_zeros, NilEmpty.usu. cbn.
    rewrite of_uint_zeros, DecimalN.Unsigned.of_to. reflexivity.
  - rewrite string_of_list_ascii_of_string, NilEmpty.usu. cbn.
    rewrite DecimalN.Unsigned.of_to. reflexivity.
Qed.

(* ================================================================== *)
(** * The hour count *)
(* ================================================================== *)

Lemma Qabs_cases (q : Q) :
  (0 <= q /\ Qabs q == q)%Q \/ (q <= 0 /\ Qabs q == - q)%Q.
Proof.
  destruct (Qlt_le_dec q 0) as [H|H].
  - right. split; [lra|]. apply Qabs_neg. lra.
  - left. split; [lra|]. apply Qabs_pos. lra.
Qed.

Ltac abs_cases t :=
  let H1 := fresh "Hsign" in
  let H2 := fresh "Habs" in
  destruct (Qabs_cases t) as [[H1 H2]|[H1 H2]].

Lemma Qabs_integer (z : Z) :
  (inject_Z z == 0 \/ 1 <= Qabs (inject_Z z))%Q.
Proof.
  destruct (Z.eq_dec z 0) as [->|Hz]; [left; reflexivity|right].
  change (Qabs (inject_Z z)) with (inject_Z (Z.abs z)).
  change 1%Q with (inject_Z 1). rewrite <- Zle_Qle. lia.
Qed.

Section HourCount.

Variable fl : Q -> Q.
Hypothesis fl_nearest : roundsToNearest fl.

(** The hour count of a difference of [z] milliseconds, as the command
    computes it. *)
Lemma hour_count_error (z : Z) :
  Z.abs z <= 2 * maxTimeValue ->
  let exact := (Qabs (inject_Z z) / inject_Z 3600000)%Q in
  let computed := Qabs (fl (fl (inject_Z z) / inject_Z 3600000)) in
  (Qabs (computed - exact) <= exact * (3 # 2 ^ 53)
   /\ 0 <= computed
   /\ computed < inject_Z (10 ^ 21))%Q.
Proof.
  intros Hz exact computed. subst exact computed.
  assert (Hmax : (Qabs (inject_Z z) <= inject_Z (2 * maxTimeValue))%Q).
  { change (Qabs (inject_Z z)) with (inject_Z (Z.abs z)).
    rewrite <- Zle_Qle. exact Hz. }
  change (inject_Z (2 * maxTimeValue)) with (17280000000000000 # 1)%Q in Hmax.
  pose proof (Qabs_integer z) as Hint.
  change (inject_Z (10 ^ 21)) with (1000000000000000000000 # 1)%Q.
  change (fl (inject_Z z) / inject_Z 3600000)%Q
    with (fl (inject_Z z) * (1 # 3600000))%Q.
  change (Qabs (inject_Z z) / inject_Z 3600000)%Q
    with (Qabs (inject_Z z) * (1 # 3600000))%Q.
  set (D := inject_Z z) in *.
  assert (E1 : (Qabs (fl D - D) <= Qabs D * unitRoundoff)%Q).
  { apply fl_nearest. destruct Hint as [H|H]; [left; exact H|right].
    change (inject_Z (2 ^ 64)) with (18446744073709551616 # 1)%Q.
    change (2 ^ 64)%positive with 18446744073709551616%positive.
    split; lra. }
  unfold unitRoundoff in *.
  change (2 ^ 53)%positive with 9007199254740992%positive in *.
  set (F := fl D) in *.
  assert (E2 : (Qabs (fl (F * (1 # 3600000)) - F * (1 # 3600000))
                <= Qabs (F * (1 # 3600000)) * (1 # 9007199254740992))%Q).
  { apply fl_nearest.
    change (inject_Z (2 ^ 64)) with (18446744073709551616 # 1)%Q.
    change (2 ^ 64)%positive with 18446744073709551616%positive.
    destruct Hint as [H|H].
    - left. abs_cases (F - D)%Q; abs_cases D; lra.
    - right. abs_cases (F - D)%Q; abs_cases D;
        abs_cases (F * (1 # 3600000))%Q; split; lra. }
  set (X := fl (F * (1 # 3600000))%Q) in *.
  abs_cases (F - D)%Q; abs_cases D; abs_cases (F * (1 # 3600000))%Q;
    abs_cases (X - F * (1 # 3600000))%Q; abs_cases X;
    abs_cases (Qabs X - Qabs D * (1 # 3600000))%Q;
    repeat split; lra.
Qed.

End HourCount.

Lemma toFixed_fixed_notation (numberToString : Q -> string) (f : nat) (x : Q) :
  (0 <= x)%Q -> (x < inject_Z (10 ^ 21))%Q ->
  toFixed numberToString f (Num x)
  = string_of_list_ascii (fixedDigits f (Z.to_N (nearestScaled f x))).
Proof.
  intros H0 H1. unfold toFixed.
  apply Qle_bool_iff in H0. rewrite H0.
  destruct (Qle_bool (inject_Z (10 ^ 21)) x) eqn:E.
  - apply Qle_bool_iff in E. lra.
  - reflexivity.
Qed.

(** The integer [toFixed(2)] prints is the nearest to a hundred times the
    number. *)
Lemma nearestScaled_two (x : Q) :
  (0 <= x)%Q ->
  0 <= nearestScaled 2 x
  /\ (Qabs (inject_Z (nearestScaled 2 x) / inject_Z 100 - x) <= 1 # 200)%Q.
Proof.
  intros Hx. unfold nearestScaled.
  change (inject_Z (10 ^ Z.of_nat 2)) with (100 # 1)%Q.
  set (y := (x * (100 # 1) + (1 # 2))%Q).
  pose proof (Qfloor_le y) as H1.
  pose proof (Qlt_floor y) as H2.
  split.
  - change 0 with (Qfloor 0). apply Qfloor_resp_le. subst y. lra.
  - rewrite inject_Z_plus in H2. change (inject_Z 1) with 1%Q in H2.
    change (inject_Z (Qfloor y) / inject_Z 100)%Q
      with (inject_Z (Qfloor y) * (1 # 100))%Q.
    set (n := inject_Z (Qfloor y)) in *. subst y.
    abs_cases (n * (1 # 100) - x)%Q; lra.
Qed.

(* ================================================================== *)
(** * The model of binary64 rounds to nearest *)
(* ================================================================== *)

Lemma roundHalfEven_error (a b : Z) :
  0 <= a -> 0 < b ->
  2 * Z.abs (Binary64.roundHalfEven a b * b - a) <= b.
Proof.
  intros Ha Hb. unfold Binary64.roundHalfEven.
  pose proof (Z.div_mod a b ltac:(lia)) as E.
  pose proof (Z.mod_pos_bound a b Hb) as R.
  set (k := a / b) in *. set (r := a mod b) in *.
  destruct (Z.ltb_spec (2 * r) b); [|destruct (Z.ltb_spec b (2 * r));
    [|destruct (Z.even k)]]; nia.
Qed.

Lemma scale_positive (n d e : Z) :
  0 < n -> 0 < d ->
  0 < fst (Binary64.scale n d e) /\ 0 < snd (Binary64.scale n d e).
Proof.
  intros Hn Hd. unfold Binary64.scale.
  destruct (Z.leb_spec 0 e); cbn [fst snd].
  - pose proof (Z.pow_pos_nonneg 2 e ltac:(lia) ltac:(lia)). nia.
  - pose proof (Z.pow_pos_nonneg 2 (- e) ltac:(lia) ltac:(lia)). nia.
Qed.

(** The significand has at least 53 bits. *)
Lemma scale_exponent (n d : Z) :
  0 < n -> 0 < d ->
  2 ^ 52 * snd (Binary64.scale n d (Binary64.exponent n d))
  <= fst (Binary64.scale n d (Binary64.exponent n d)).
Proof.
  intros Hn Hd. unfold Binary64.exponent.
  pose proof (Z.log2_spec n Hn) as [Ln Un].
  pose proof (Z.log2_spec d Hd) as [Ld Ud].
  pose proof (Z.log2_nonneg n) as Nn.
  pose proof (Z.log2_nonneg d) as Nd.
  set (L := Z.log2 n) in *. set (M := Z.log2 d) in *.
  set (e0 := L - M - 53).
  destruct (Binary64.scale n d e0) as [a0 b0] eqn:S0.
  destruct (Z.ltb_spec a0 (b0 * 2 ^ 53)) as [Hlt|Hge].
  - (* the first guess is the exponent *)
    rewrite S0. cbn [fst snd]. unfold Binary64.scale in S0.
    destruct (Z.leb_spec 0 e0) as [He|He]; injection S0 as <- <-.
    + assert (P : 2 ^ L = 2 ^ 52 * 2 ^ e0 * 2 ^ Z.succ M).
      { rewrite <- !Z.pow_add_r by lia. f_equal. lia. }
      pose proof (Z.pow_pos_nonneg 2 e0 ltac:(lia) He) as Pe.
      change (2 ^ 52) with 4503599627370496 in *.
      nia.
    + assert (P : 2 ^ L * 2 ^ (- e0) = 2 ^ 52 * 2 ^ Z.succ M).
      { rewrite <- !Z.pow_add_r by lia. f_equal. lia. }
      pose proof (Z.pow_pos_nonneg 2 (- e0) ltac:(lia) ltac:(lia)) as Pe.
      change (2 ^ 52) with 4503599627370496 in *.
      nia.
  - (* the quotient has 54 bits: one exponent more *)
    unfold Binary64.scale in *.
    change (2 ^ 53) with 9007199254740992 in *.
    change (2 ^ 52) with 4503599627370496 in *.
    destruct (Z.leb_spec 0 e0) as [He|He]; injection S0 as <- <-.
    + destruct (Z.leb_spec 0 (e0 + 1)); [|lia]. cbn [fst snd].
      rewrite Z.pow_add_r by lia. change (2 ^ 1) with 2. lia.
    + destruct (Z.leb_spec 0 (e0 + 1)) as [He1|He1]; cbn [fst snd].
      * assert (E0 : - e0 = 1) by lia. assert (E1 : e0 + 1 = 0) by lia.
        rewrite E0 in Hge. rewrite E1. change (2 ^ 1) with 2 in Hge.
        change (2 ^ 0) with 1. lia.
      * replace (- e0) with (- (e0 + 1) + 1) in Hge by lia.
        rewrite Z.pow_add_r in Hge by lia. change (2 ^ 1) with 2 in Hge.
        lia.
Qed.

Lemma roundPositive_error (n d : positive) :
  (Qabs (Binary64.roundPositive (Zpos n) (Zpos d) - (Zpos n # d))
   <= (Zpos n # d) * unitRoundoff)%Q.
Proof.
  unfold Binary64.roundPositive.
  pose proof (scale_exponent (Zpos n) (Zpos d) eq_refl eq_refl) as H52.
  pose proof (scale_positive (Zpos n) (Zpos d)
                (Binary64.exponent (Zpos n) (Zpos d)) eq_refl eq_refl)
    as [Ha Hb].
  set (e := Binary64.exponent (Zpos n) (Zpos d)) in *.
  change (2 ^ 52) with 4503599627370496 in *.
  unfold Binary64.scale in *.
  destruct (Z.leb_spec 0 e) as [He|He]; cbn [fst snd] in *.
  - pose proof (roundHalfEven_error (Z.pos n) (Z.pos d * 2 ^ e)
                  ltac:(lia) Hb) as Hm.
    set (m := Binary64.roundHalfEven (Z.pos n) (Z.pos d * 2 ^ e)) in *.
    set (P := 2 ^ e) in *.
    unfold Qle, Qabs, Qminus, Qplus, Qopp, Qmult, inject_Z, unitRoundoff.
    cbn [Qnum Qden].
    rewrite !Pos2Z.inj_mul.
    change (Z.pos (2 ^ 53)) with 9007199254740992.
    replace (m * P * Z.pos d + - Z.pos n * 1)
      with (m * (Z.pos d * P) - Z.pos n) by ring.
    set (x := Z.abs (m * (Z.pos d * P) - Z.pos n)) in *.
    assert (x * 9007199254740992 <= Z.pos n) by lia.
    nia.
  - pose proof (Z.pow_pos_nonneg 2 (- e) ltac:(lia) ltac:(lia)) as Pe.
    pose proof (roundHalfEven_error (Z.pos n * 2 ^ (- e)) (Z.pos d)
                  ltac:(lia) Hb) as Hm.
    set (m := Binary64.roundHalfEven (Z.pos n * 2 ^ (- e)) (Z.pos d)) in *.
    set (P := 2 ^ (- e)) in *.
    unfold Qle, Qabs, Qminus, Qplus, Qopp, Qmult, unitRoundoff.
    cbn [Qnum Qden].
    rewrite !Pos2Z.inj_mul, Z2Pos.id by exact Pe.
    change (Z.pos (2 ^ 53)) with 9007199254740992.
    replace (m * Z.pos d + - Z.pos n * P)
      with (m * Z.pos d - Z.pos n * P) by ring.
    set (x := Z.abs (m * Z.pos d - Z.pos n * P)) in *.
    assert (x * 9007199254740992 <= Z.pos n * P) by lia.
    nia.
Qed.

(** The model has the accuracy of binary64, on every rational. *)
Lemma binary64_error (q : Q) :
  (Qabs (Binary64.fl q - q) <= Qabs q * unitRoundoff)%Q.
Proof.
  destruct q as [[|n|n] d]; unfold Binary64.fl; cbn [Qnum Qden].
  - unfold Qle. cbn. lia.
  - exact (roundPositive_error n d).
  - pose proof (roundPositive_error n d) as H.
    set (r := Binary64.roundPositive (Z.pos n) (Z.pos d)) in *.
    change (Z.neg n # d)%Q with (- (Z.pos n # d))%Q.
    rewrite Qabs_opp.
    assert (E : (- r - - (Z.pos n # d) == - (r - (Z.pos n # d)))%Q) by ring.
    rewrite E, Qabs_opp. exact H.
Qed.

Lemma binary64_rounds_to_nearest : roundsToNearest Binary64.fl.
Proof.
  intros q _. apply binary64_error.
Qed.

(* ================================================================== *)
(** * The injected string *)
(* ================================================================== *)

(** On valid times the injected string is as it should be.  When the loop
    has left two valid times (within the range of [Date]) and a target, the
    command resolves and injects a string in fixed notation with exactly two
    fraction digits and without a sign; read back as hundredths it is the
    integer nearest to a hundred times the computed hour count, which is the
    absolute difference between end and start in hours up to three units of
    binary64 rounding; equal times give ["0.00"]. *)
Theorem formatted_hours_of_valid_times
    (moment : string -> string -> Moment) (fl : Q -> Q)
    (numberToString : Q -> string)
    (a : Ambient) (editor : TextEditor) (s e : Moment) (t : Position) :
  roundsToNearest fl ->
  activeTextEditor a = Some editor ->
  List.length (selections editor) = 3%nat ->
  classify moment editor (getTimeString a)
  = mkLocals (Some s) (Some e) (Some t) ->
  inDateRange s ->
  inDateRange e ->
  let text := formatDuration fl numberToString s e in
  computeAndPrintDuration moment fl numberToString a
  = mkRun [mkInjection (document editor) text t] (Some Resolved)
  /\ (forall x y, s = ValidMoment x -> e = ValidMoment y ->
        exists n : N,
          text = string_of_list_ascii (fixedDigits 2 n)
          /\ isFixedNotation 2 text = true
          /\ digitsValue (withoutPoint text) = Some n
          /\ (Qabs (inject_Z (Z.of_N n) / inject_Z 100
                    - inject_Z (Z.abs (y - x)) / inject_Z 3600000)
              <= (1 # 200)
                 + inject_Z (Z.abs (y - x)) / inject_Z 3600000
                   * (3 # 2 ^ 53))%Q
          /\ (x = y -> text = "0.00"%string)).
Proof.
  intros Hfl He Hn Hc Hs Hen text.
  split.
  - rewrite (command_three moment fl numberToString a editor He Hn), Hc.
    reflexivity.
  - intros x y -> ->. cbn [inDateRange] in Hs, Hen.
    assert (Hz : Z.abs (x - y) <= 2 * maxTimeValue) by lia.
    pose proof (hour_count_error fl Hfl (x - y) Hz) as H. cbv zeta in H.
    destruct H as (Herr & H0 & H21).
    pose proof (nearestScaled_two _ H0) as [Hn0 Hn1].
    subst text. unfold formatDuration, duration, diff, asHours, Math_abs.
    cbn [_milliseconds].
    rewrite (toFixed_fixed_notation numberToString 2 _ H0 H21).
    set (X := Qabs (fl (fl (inject_Z (x - y)) / inject_Z 3600000)%Q)) in *.
    exists (Z.to_N (nearestScaled 2 X)).
    assert (Hbound :
      (Qabs (inject_Z (Z.of_N (Z.to_N (nearestScaled 2 X))) / inject_Z 100
             - inject_Z (Z.abs (y - x)) / inject_Z 3600000)
       <= (1 # 200)
          + inject_Z (Z.abs (y - x)) / inject_Z 3600000 * (3 # 2 ^ 53))%Q).
    { rewrite Z2N.id by exact Hn0.
      replace (Z.abs (y - x)) with (Z.abs (x - y)) by lia.
      change (inject_Z (Z.abs (x - y))) with (Qabs (inject_Z (x - y))).
      revert Herr Hn1.
      change (inject_Z (nearestScaled 2 X) / inject_Z 100)%Q
        with (inject_Z (nearestScaled 2 X) * (1 # 100))%Q.
      change (Qabs (inject_Z (x - y)) / inject_Z 3600000)%Q
        with (Qabs (inject_Z (x - y)) * (1 # 3600000))%Q.
      change (2 ^ 53)%positive with 9007199254740992%positive.
      set (N := inject_Z (nearestScaled 2 X)).
      set (D := Qabs (inject_Z (x - y))).
      intros Herr Hn1.
      abs_cases (X - D * (1 # 3600000))%Q;
        abs_cases (N * (1 # 100) - X)%Q;
        abs_cases (N * (1 # 100) - D * (1 # 3600000))%Q; lra. }
    split; [reflexivity|]. split; [apply fixedDigits_shape|].
    split; [rewrite withoutPoint_fixedDigits; apply paddedDigits_value|].
    split; [exact Hbound|].
    intros ->. revert Hbound. rewrite Z.sub_diag. cbn [Z.abs].
    set (k := Z.to_N (nearestScaled 2 X)).
    intros Hbound.
    assert (Hk : k = 0%N).
    { assert (Hq : (inject_Z (Z.of_N k) < inject_Z 1)%Q).
      { revert Hbound.
        change (inject_Z (Z.of_N k) / inject_Z 100)%Q
          with (inject_Z (Z.of_N k) * (1 # 100))%Q.
        change (inject_Z 0 / inject_Z 3600000)%Q with (0 * (1 # 3600000))%Q.
        change (2 ^ 53)%positive with 9007199254740992%positive.
        change (inject_Z 1) with 1%Q.
        set (N := inject_Z (Z.of_N k)). intros Hbound.
        abs_cases (N * (1 # 100) - 0 * (1 # 3600000))%Q; lra. }
      rewrite <- Zlt_Qlt in Hq. lia. }
    rewrite Hk. reflexivity.
Qed.

Lemma formatted_hours_of_valid_times_witness :
  Sample.run Sample.monday Sample.workdayAmbient
  = mkRun [mkInjection Sample.workday "4.50" (mkPosition 1 0)]
          (Some Resolved).
Proof.
  pose proof
    (formatted_hours_of_valid_times (MomentModel.moment Sample.monday)
       Binary64.fl Binary64.numberToString Sample.workdayAmbient
       (mkTextEditor Sample.workday Sample.threeCursors)
       (ValidMoment 1520242200000) (ValidMoment 1520258400000)
       (mkPosition 1 0)
       binary64_rounds_to_nearest eq_refl eq_refl eq_refl) as H.
  cbv zeta in H. destruct H as [H _].
  - cbn. unfold maxTimeValue. lia.
  - cbn. unfold maxTimeValue. lia.
  - unfold Sample.run. rewrite H. vm_compute. reflexivity.
Defined.

(** C4. The code at the failing input.  With a cursor in the word
    ["25:00"], which is no time of the day and parses under neither format,
    the command should not succeed; it does, and what it injects is
    ["NaN"], which is no number of hours and has no fraction digits. *)
Lemma successful_output_without_digits :
  getText Sample.overlong (mkRange (mkPosition 0 6) (mkPosition 0 11))
  = "25:00"%string
  /\ classify (MomentModel.moment Sample.monday)
       (mkTextEditor Sample.overlong Sample.threeCursors) "HH:mm"
     = mkLocals (Some (ValidMoment 1520242200000)) (Some InvalidMoment)
         (Some (mkPosition 1 0))
  /\ settled (Sample.run Sample.monday Sample.overlongAmbient)
     = Some Resolved
  /\ written (Sample.run Sample.monday Sample.overlongAmbient)
     = [("NaN"%string, mkPosition 1 0)]
  /\ isFixedNotation 2 "NaN" = false.
Proof.
  repeat split; reflexivity.
Qed.

(** Without [Math.abs] a small negative hour count would print a negative
    zero. *)
Example toFixed_negative_zero :
  toFixed Binary64.numberToString 2 (Num (- (1 # 1000))) = "-0.00"%string.
Proof.
  reflexivity.
Qed.

(* ================================================================== *)
(** * More on the duration command *)
(* ================================================================== *)

Lemma forEach_ordered (moment : string -> string -> Moment)
    (doc : TextDocument) (tpl : string) (sels : list Selection) (l : Locals) :
  orderedLocals l ->
  orderedLocals (fold_left (forEachBody moment doc tpl) sels l).
Proof.
  revert l. induction sels as [|s sels IH]; intros l Hl; [exact Hl|].
  cbn [fold_left]. apply IH. destruct Hl as [Hnone Hord].
  unfold forEachBody, orderedLocals.
  destruct (getWordRangeAtPosition doc (active s) regExp) as [range|];
    cbn [start end_ target]; [|split; assumption].
  destruct (start l) as [s0|] eqn:Es.
  - destruct (isAfter s0 _) eqn:Ea; cbn [start end_ target].
    + split; [discriminate|]. intros s1 e1 H1 H2.
      injection H1 as <-. injection H2 as <-.
      destruct s0 as [x|]; [|discriminate Ea].
      destruct (parseTime moment (getText doc range) tpl) as [y|];
        [|reflexivity].
      cbn in *. lia.
    + split; [discriminate|]. intros s1 e1 H1 H2.
      injection H1 as <-. injection H2 as <-. exact Ea.
  - cbn [start end_ target]. split; [discriminate|].
    intros s1 e1 _ H2. rewrite (Hnone eq_refl) in H2. discriminate H2.
Qed.

(** X1. Whatever the document, the format and the selections, in any
    number, the loop leaves its locals in order: [end] is set only when
    [start] is, [start] is never after [end], and two valid times are in
    chronological order. *)
Theorem start_never_after_end
    (moment : string -> string -> Moment) (editor : TextEditor)
    (tpl : string) :
  (end_ (classify moment editor tpl) <> None ->
     start (classify moment editor tpl) <> None)
  /\ (forall s e,
        start (classify moment editor tpl) = Some s ->
        end_ (classify moment editor tpl) = Some e ->
        isAfter s e = false)
  /\ (forall x y,
        start (classify moment editor tpl) = Some (ValidMoment x) ->
        end_ (classify moment editor tpl) = Some (ValidMoment y) ->
        x <= y).
Proof.
  assert (H : orderedLocals (classify moment editor tpl)).
  { apply forEach_ordered. split; [reflexivity|]. discriminate. }
  destruct H as [Hnone Hord].
  split; [|split].
  - intros He Hs. apply He, Hnone, Hs.
  - exact Hord.
  - intros x y Hs He. pose proof (Hord _ _ Hs He) as H. cbn in H. lia.
Qed.

(** X2. The settlement of the command is decided by three counts alone:
    whether there is an active editor, whether it has three selections, and
    how many of the three have no word of the pattern under the cursor.  No
    such selection: no target.  One: the promise resolves, whatever the two
    words parse to.  Two: no end.  Three: no start. *)
Theorem settlement_decided_by_targets
    (moment : string -> string -> Moment) (fl : Q -> Q)
    (numberToString : Q -> string) (a : Ambient) :
  settled (computeAndPrintDuration moment fl numberToString a)
  = Some (settlementFor a).
Proof.
  unfold settlementFor.
  destruct (activeTextEditor a) as [editor|] eqn:He;
    [|rewrite (command_no_editor _ _ _ _ He); reflexivity].
  destruct (Nat.eqb_spec (List.length (selections editor)) 3) as [Hn|Hn];
    [|rewrite (command_wrong_count _ _ _ _ _ He Hn); reflexivity].
  rewrite (command_three _ _ _ _ _ He Hn).
  unfold classify. destruct editor as [doc sels].
  cbn [document selections] in *.
  destruct sels as [|s1 [|s2 [|s3 [|s4 sels]]]]; try discriminate Hn.
  unfold targets, isTarget, conclusion.
  cbn [fold_left filter]. unfold forEachBody.
  destruct (getWordRangeAtPosition doc (active s1) regExp);
    destruct (getWordRangeAtPosition doc (active s2) regExp);
    destruct (getWordRangeAtPosition doc (active s3) regExp);
    cbn;
    repeat match goal with
           | |- context [isAfter ?x ?y] => destruct (isAfter x y); cbn
           end;
    reflexivity.
Qed.

Lemma forEach_same_cursors (moment : string -> string -> Moment)
    (doc : TextDocument) (tpl : string) (sels sels' : list Selection) :
  map active sels = map active sels' ->
  forall l,
    fold_left (forEachBody moment doc tpl) sels l
    = fold_left (forEachBody moment doc tpl) sels' l.
Proof.
  revert sels'. induction sels as [|s sels IH]; intros [|s' sels'] H l;
    try discriminate H; [reflexivity|].
  cbn [map] in H. injection H as Ha Hrest. cbn [fold_left].
  replace (forEachBody moment doc tpl l s')
    with (forEachBody moment doc tpl l s)
    by (unfold forEachBody; rewrite Ha; reflexivity).
  apply IH, Hrest.
Qed.

(** X3. The command reads the cursor of each selection and nothing else of
    it: two lists of selections with the same cursors, whatever text they
    select, give the same run. *)
Theorem only_cursors_matter
    (moment : string -> string -> Moment) (fl : Q -> Q)
    (numberToString : Q -> string)
    (doc : TextDocument) (tpl : string) (sels sels' : list Selection) :
  map active sels = map active sels' ->
  computeAndPrintDuration moment fl numberToString
    (mkAmbient (Some (mkTextEditor doc sels)) tpl)
  = computeAndPrintDuration moment fl numberToString
      (mkAmbient (Some (mkTextEditor doc sels')) tpl).
Proof.
  intros H.
  assert (Hlen : List.length sels = List.length sels').
  { rewrite <- (length_map active sels), H. apply length_map. }
  destruct (Nat.eq_dec (List.length sels) 3) as [Hn|Hn].
  - rewrite (command_three moment fl numberToString
               (mkAmbient (Some (mkTextEditor doc sels)) tpl)
               (mkTextEditor doc sels) eq_refl Hn).
    rewrite Hlen in Hn.
    rewrite (command_three moment fl numberToString
               (mkAmbient (Some (mkTextEditor doc sels')) tpl)
               (mkTextEditor doc sels') eq_refl Hn).
    unfold classify. cbn [document selections getTimeString].
    rewrite (forEach_same_cursors moment doc tpl sels sels' H). reflexivity.
  - rewrite (command_wrong_count moment fl numberToString
               (mkAmbient (Some (mkTextEditor doc sels)) tpl)
               (mkTextEditor doc sels) eq_refl Hn).
    rewrite Hlen in Hn.
    rewrite (command_wrong_count moment fl numberToString
               (mkAmbient (Some (mkTextEditor doc sels')) tpl)
               (mkTextEditor doc sels') eq_refl Hn).
    reflexivity.
Qed.

Lemma only_cursors_matter_witness :
  Sample.run Sample.monday
    (Sample.ambient Sample.workday
       [mkSelection (mkPosition 0 0) (mkPosition 0 5);
        mkSelection (mkPosition 0 11) (mkPosition 0 6);
        mkSelection (mkPosition 0 0) (mkPosition 1 0)])
  = Sample.run Sample.monday
      (Sample.ambient Sample.workday
         [Sample.at_ 0 5; Sample.at_ 0 6; Sample.at_ 1 0]).
Proof.
  apply (only_cursors_matter (MomentModel.moment Sample.monday)
           Binary64.fl Binary64.numberToString Sample.workday "HH:mm").
  reflexivity.
Defined.

Lemma lastOf_In {A} (l : list A) (x : A) : lastOf l = Some x -> In x l.
Proof.
  induction l as [|y l IH]; [discriminate|].
  rewrite lastOf_cons. destruct (lastOf l) as [z|].
  - intros H. right. apply IH. exact H.
  - intros H. injection H as <-. left. reflexivity.
Qed.

(** X4. A resolved promise tells how the command got there: the active
    editor had three selections, the one injection went into its document at
    the cursor of a selection without a word of the pattern, and the string
    is the formatted difference of a start and an end of which the start is
    not the later. *)
Theorem resolved_run_inversion
    (moment : string -> string -> Moment) (fl : Q -> Q)
    (numberToString : Q -> string) (a : Ambient) :
  settled (computeAndPrintDuration moment fl numberToString a)
  = Some Resolved ->
  exists editor s e sel,
    activeTextEditor a = Some editor
    /\ List.length (selections editor) = 3%nat
    /\ In sel (selections editor)
    /\ isTarget (document editor) sel = true
    /\ start (classify moment editor (getTimeString a)) = Some s
    /\ end_ (classify moment editor (getTimeString a)) = Some e
    /\ isAfter s e = false
    /\ injected (computeAndPrintDuration moment fl numberToString a)
       = [mkInjection (document editor)
            (formatDuration fl numberToString s e) (active sel)].
Proof.
  destruct (activeTextEditor a) as [editor|] eqn:He;
    [|rewrite (command_no_editor _ _ _ _ He); discriminate].
  destruct (Nat.eq_dec (List.length (selections editor)) 3) as [Hn|Hn];
    [|rewrite (command_wrong_count _ _ _ _ _ He Hn); discriminate].
  rewrite (command_three _ _ _ _ _ He Hn).
  assert (Hord : orderedLocals (classify moment editor (getTimeString a))).
  { apply forEach_ordered. split; [reflexivity|]. discriminate. }
  destruct Hord as [_ Hord].
  pose proof (forEach_target moment (document editor) (getTimeString a)
                (selections editor) noLocals) as Ht.
  fold (classify moment editor (getTimeString a)) in Ht.
  unfold conclusion.
  destruct (start (classify moment editor (getTimeString a))) as [s|] eqn:Es;
    [|discriminate].
  destruct (end_ (classify moment editor (getTimeString a))) as [e|] eqn:Ee;
    [|discriminate].
  destruct (target (classify moment editor (getTimeString a))) as [t|];
    [|discriminate].
  intros _.
  destruct (lastOf (targets (document editor) (selections editor)))
    as [sel|] eqn:El; [|discriminate Ht].
  injection Ht as ->.
  apply lastOf_In in El. unfold targets in El. apply filter_In in El.
  destruct El as [Hin Htg].
  exists editor, s, e, sel. repeat split; auto.
Qed.

Lemma resolved_run_inversion_witness :
  exists editor s e sel,
    activeTextEditor Sample.workdayAmbient = Some editor
    /\ List.length (selections editor) = 3%nat
    /\ In sel (selections editor)
    /\ isTarget (document editor) sel = true
    /\ start (classify (MomentModel.moment Sample.monday) editor
                (getTimeString Sample.workdayAmbient)) = Some s
    /\ end_ (classify (MomentModel.moment Sample.monday) editor
               (getTimeString Sample.workdayAmbient)) = Some e
    /\ isAfter s e = false
    /\ injected (Sample.run Sample.monday Sample.workdayAmbient)
       = [mkInjection (document editor)
            (formatDuration Binary64.fl Binary64.numberToString s e)
            (active sel)].
Proof.
  apply (resolved_run_inversion (MomentModel.moment Sample.monday)
           Binary64.fl Binary64.numberToString Sample.workdayAmbient).
  reflexivity.
Defined.

Lemma Qfloor_unique (y : Q) (m : Z) :
  (inject_Z m <= y)%Q -> (y < inject_Z (m + 1))%Q -> Qfloor y = m.
Proof.
  intros H1 H2.
  pose proof (Qfloor_le y) as F1. pose proof (Qlt_floor y) as F2.
  assert (A : (inject_Z m < inject_Z (Qfloor y + 1))%Q) by lra.
  assert (B : (inject_Z (Qfloor y) < inject_Z (m + 1))%Q) by lra.
  rewrite <- Zlt_Qlt in A, B. lia.
Qed.

(** X5. Two valid times a whole number [k] of minutes apart print exactly:
    the two fraction digits and the digits before them are those of the
    integer nearest to [100 * k / 60], which is [(10 * k + 3) / 6] rounded
    down; the rounding of binary64 arithmetic changes no digit. *)
Theorem whole_minutes_print_exactly
    (moment : string -> string -> Moment) (fl : Q -> Q)
    (numberToString : Q -> string)
    (a : Ambient) (editor : TextEditor) (x y : Z) (t : Position) (k : Z) :
  roundsToNearest fl ->
  activeTextEditor a = Some editor ->
  List.length (selections editor) = 3%nat ->
  classify moment editor (getTimeString a)
  = mkLocals (Some (ValidMoment x)) (Some (ValidMoment y)) (Some t) ->
  - maxTimeValue <= x <= maxTimeValue ->
  - maxTimeValue <= y <= maxTimeValue ->
  Z.abs (y - x) = 60000 * k ->
  computeAndPrintDuration moment fl numberToString a
  = mkRun [mkInjection (document editor)
             (string_of_list_ascii
                (fixedDigits 2 (Z.to_N ((10 * k + 3) / 6))))
             t]
          (Some Resolved).
Proof.
  intros Hfl He Hn Hc Hx Hy Hk.
  rewrite (command_three moment fl numberToString a editor He Hn), Hc.
  unfold conclusion. cbn [start end_ target].
  assert (Hz : Z.abs (x - y) <= 2 * maxTimeValue) by lia.
  pose proof (hour_count_error fl Hfl (x - y) Hz) as H. cbv zeta in H.
  destruct H as (Herr & H0 & H21).
  unfold formatDuration, duration, diff, asHours, Math_abs.
  cbn [_milliseconds].
  rewrite (toFixed_fixed_notation numberToString 2 _ H0 H21).
  set (X := Qabs (fl (fl (inject_Z (x - y)) / inject_Z 3600000)%Q)) in *.
  unfold nearestScaled.
  change (inject_Z (10 ^ Z.of_nat 2)) with (100 # 1)%Q.
  pose proof (Z.div_mod (10 * k + 3) 6 ltac:(lia)) as Ediv.
  pose proof (Z.mod_pos_bound (10 * k + 3) 6 ltac:(lia)) as Hr.
  set (m := (10 * k + 3) / 6) in *. set (r := (10 * k + 3) mod 6) in *.
  assert (Hr1 : 1 <= r) by lia.
  unfold maxTimeValue in *.
  assert (Hk0 : 0 <= k <= 288000000000) by lia.
  assert (HD : (Qabs (inject_Z (x - y)) == 60000 * inject_Z k)%Q).
  { change (Qabs (inject_Z (x - y))) with (inject_Z (Z.abs (x - y))).
    replace (Z.abs (x - y)) with (60000 * k) by lia.
    rewrite inject_Z_mult. reflexivity. }
  assert (HE : (10 * inject_Z k + 3 == 6 * inject_Z m + inject_Z r)%Q).
  { change 3%Q with (inject_Z 3). change 10%Q with (inject_Z 10).
    change 6%Q with (inject_Z 6).
    rewrite <- !inject_Z_mult, <- !inject_Z_plus, Ediv. reflexivity. }
  assert (HR : (1 <= inject_Z r <= 5)%Q).
  { change 1%Q with (inject_Z 1). change 5%Q with (inject_Z 5).
    rewrite <- !Zle_Qle. lia. }
  assert (HK : (0 <= inject_Z k <= 288000000000)%Q).
  { change 0%Q with (inject_Z 0).
    change 288000000000%Q with (inject_Z 288000000000).
    rewrite <- !Zle_Qle. exact Hk0. }
  revert Herr.
  change (Qabs (inject_Z (x - y)) / inject_Z 3600000)%Q
    with (Qabs (inject_Z (x - y)) * (1 # 3600000))%Q.
  change (2 ^ 53)%positive with 9007199254740992%positive.
  set (D := Qabs (inject_Z (x - y))) in *.
  set (K := inject_Z k) in *. set (M := inject_Z m) in *.
  set (R := inject_Z r) in *.
  intros Herr.
  assert (Hfloor : Qfloor (X * (100 # 1) + (1 # 2)) = m).
  { apply Qfloor_unique.
    - fold M. abs_cases (X - D * (1 # 3600000))%Q; lra.
    - rewrite inject_Z_plus. fold M. change (inject_Z 1) with 1%Q.
      abs_cases (X - D * (1 # 3600000))%Q; lra. }
  rewrite Hfloor. reflexivity.
Qed.

Lemma whole_minutes_print_exactly_witness :
  Sample.run Sample.monday Sample.workdayAmbient
  = mkRun [mkInjection Sample.workday "4.50" (mkPosition 1 0)]
          (Some Resolved).
Proof.
  pose proof
    (whole_minutes_print_exactly (MomentModel.moment Sample.monday)
       Binary64.fl Binary64.numberToString Sample.workdayAmbient
       (mkTextEditor Sample.workday Sample.threeCursors)
       1520242200000 1520258400000 (mkPosition 1 0) 270
       binary64_rounds_to_nearest eq_refl eq_refl eq_refl) as H.
  unfold Sample.run. rewrite H.
  - reflexivity.
  - unfold maxTimeValue. lia.
  - unfold maxTimeValue. lia.
  - reflexivity.
Defined.

(* ================================================================== *)
(** * More on the pipelines *)
(* ================================================================== *)

Lemma not_cancel_iff (reason : JSValue) :
  looseNotEqualString reason "cancel" = false <-> reason = cancel.
Proof.
  unfold cancel. destruct reason as [s| |]; cbn; split; try discriminate.
  - intros H. apply negb_false_iff, String.eqb_eq in H. rewrite H. reflexivity.
  - intros H. injection H as ->. reflexivity.
Qed.

Ltac chase_stages :=
  repeat match goal with
         | H : Fulfilled _ = Fulfilled _ |- _ => injection H as H; subst
         | H : RejectedWith _ = Fulfilled _ |- _ => discriminate H
         | E : ?t = _, H : ?t = Fulfilled _ |- _ => rewrite E in H
         end.

(** X6. [processInput] fulfils its deferred exactly when the five stages
    fulfil in turn: the prompt, the parser, the loader of the entry at the
    offset of the parsed input, the injection of that input into the entry
    loaded, and the display of the document the injection returned.  It
    never rejects its deferred with the sentinel ['cancel']: a rejection is
    the reason the chain stopped with, reported once; the sentinel leaves
    the deferred unsettled. *)
Theorem processInput_settles_with_its_stages {Input Path Content : Type}
    (ctrl : Ctrl Input Path Content) :
  (forall editor,
     deferred (processInput _ _ _ ctrl) = Some (Fulfilled editor)
     <-> exists inputString input entry doc,
           ui_getUserInput _ _ _ ctrl "Enter day or memo (with flags) "
           = Fulfilled inputString
           /\ parser_parseInput _ _ _ ctrl inputString = Fulfilled input
           /\ reader_loadEntryForOffset _ _ _ ctrl (offset _ _ _ ctrl input)
              = Fulfilled entry
           /\ inject_injectInput _ _ _ ctrl entry input = Fulfilled doc
           /\ ui_showDocument _ _ _ ctrl doc = Fulfilled editor)
  /\ (forall reason,
        deferred (processInput _ _ _ ctrl) = Some (RejectedWith reason)
        <-> processInputChain _ _ _ ctrl = RejectedWith reason
            /\ reason <> cancel)
  /\ (forall reason,
        deferred (processInput _ _ _ ctrl) = Some (RejectedWith reason) ->
        reports (processInput _ _ _ ctrl)
        = [UtilError "Failed to process input."])
  /\ (deferred (processInput _ _ _ ctrl) = None
      <-> processInputChain _ _ _ ctrl = RejectedWith cancel).
Proof.
  split; [|split; [|split]].
  - intros editor. unfold processInput, processInputChain, loadPageForInput.
    destruct (ui_getUserInput _ _ _ ctrl _) as [inputString|r1] eqn:E1; cbn.
    2:{ split; [destruct (looseNotEqualString r1 "cancel"); cbn; discriminate|].
        intros (? & ? & ? & ? & H1 & _). chase_stages. }
    destruct (parser_parseInput _ _ _ ctrl inputString) as [input|r2] eqn:E2;
      cbn.
    2:{ split; [destruct (looseNotEqualString r2 "cancel"); cbn; discriminate|].
        intros (? & ? & ? & ? & H1 & H2 & _). chase_stages. }
    destruct (reader_loadEntryForOffset _ _ _ ctrl _) as [entry|r3] eqn:E3;
      cbn.
    2:{ split; [destruct (looseNotEqualString r3 "cancel"); cbn; discriminate|].
        intros (? & ? & ? & ? & H1 & H2 & H3 & _). chase_stages. }
    destruct (inject_injectInput _ _ _ ctrl entry input) as [doc|r4] eqn:E4;
      cbn.
    2:{ split; [destruct (looseNotEqualString r4 "cancel"); cbn; discriminate|].
        intros (? & ? & ? & ? & H1 & H2 & H3 & H4 & _). chase_stages. }
    destruct (ui_showDocument _ _ _ ctrl doc) as [shown|r5] eqn:E5; cbn.
    + split.
      * intros H. injection H as <-.
        exists inputString, input, entry, doc. auto.
      * intros (? & ? & ? & ? & H1 & H2 & H3 & H4 & H5). chase_stages.
        reflexivity.
    + split; [destruct (looseNotEqualString r5 "cancel"); cbn; discriminate|].
      intros (? & ? & ? & ? & H1 & H2 & H3 & H4 & H5). chase_stages.
  - intros reason. unfold processInput.
    destruct (processInputChain _ _ _ ctrl) as [editor|r]; cbn.
    + split; [discriminate|]. intros [H _]. discriminate H.
    + destruct (looseNotEqualString r "cancel") eqn:El; cbn.
      * split.
        -- intros H. injection H as <-. split; [reflexivity|].
           intros Hc. apply not_cancel_iff in Hc. congruence.
        -- intros [H _]. injection H as <-. reflexivity.
      * apply not_cancel_iff in El. subst r. split; [discriminate|].
        intros [H Hc]. injection H as <-. contradiction.
  - intros reason. unfold processInput.
    destruct (processInputChain _ _ _ ctrl) as [editor|r]; cbn;
      [discriminate|].
    destruct (looseNotEqualString r "cancel"); cbn; [reflexivity|discriminate].
  - unfold processInput.
    destruct (processInputChain _ _ _ ctrl) as [editor|r]; cbn.
    + split; discriminate.
    + destruct (looseNotEqualString r "cancel") eqn:El; cbn.
      * split; [discriminate|]. intros H. injection H as ->.
        discriminate El.
      * apply not_cancel_iff in El. subst r. split; reflexivity.
Qed.

(** X7. [showNote] fulfils its deferred exactly when the prompt and the
    parser fulfil, the path and the content of the note are both available
    for the parsed input, the note is loaded from that path with that
    content, and the loaded document is shown.  It rejects its deferred with
    exactly the reason its chain stopped with, the sentinel ['cancel'] too.
    When the path or the content fails, the note is not loaded and the
    reason is that of the one that rejected first.  A failure other than the
    sentinel is reported twice, on the console and to the user, in this
    order. *)
Theorem showNote_settles_with_its_stages {Input Path Content : Type}
    (ctrl : Ctrl Input Path Content) :
  (forall editor,
     deferred (showNote _ _ _ ctrl) = Some (Fulfilled editor)
     <-> exists inputString input path content doc,
           ui_getUserInput _ _ _ ctrl "Enter title for new note"
           = Fulfilled inputString
           /\ parser_parseInput _ _ _ ctrl inputString = Fulfilled input
           /\ parser_resolveNotePathForInput _ _ _ ctrl input
              = Fulfilled path
           /\ inject_buildNoteContent _ _ _ ctrl input = Fulfilled content
           /\ reader_loadNote _ _ _ ctrl path content = Fulfilled doc
           /\ ui_showDocument _ _ _ ctrl doc = Fulfilled editor)
  /\ (forall reason,
        deferred (showNote _ _ _ ctrl) = Some (RejectedWith reason)
        <-> showNoteChain _ _ _ ctrl = RejectedWith reason)
  /\ (forall inputString input,
        ui_getUserInput _ _ _ ctrl "Enter title for new note"
        = Fulfilled inputString ->
        parser_parseInput _ _ _ ctrl inputString = Fulfilled input ->
        (forall reason,
           parser_resolveNotePathForInput _ _ _ ctrl input
           = RejectedWith reason ->
           (exists content,
              inject_buildNoteContent _ _ _ ctrl input = Fulfilled content)
           \/ pathSettlesFirst _ _ _ ctrl input = true ->
           showNoteChain _ _ _ ctrl = RejectedWith reason)
        /\ (forall reason,
              inject_buildNoteContent _ _ _ ctrl input
              = RejectedWith reason ->
              (exists path,
                 parser_resolveNotePathForInput _ _ _ ctrl input
                 = Fulfilled path)
              \/ pathSettlesFirst _ _ _ ctrl input = false ->
              showNoteChain _ _ _ ctrl = RejectedWith reason))
  /\ (forall reason,
        showNoteChain _ _ _ ctrl = RejectedWith reason ->
        reason <> cancel ->
        reports (showNote _ _ _ ctrl)
        = [ConsoleError "Failed to get file, Reason: " reason;
           ShowErrorMessage "Failed to create and load notes"]).
Proof.
  split; [|split; [|split]].
  - intros editor.
    assert (Hd : deferred (showNote _ _ _ ctrl)
                 = Some (showNoteChain _ _ _ ctrl)).
    { unfold showNote. destruct (showNoteChain _ _ _ ctrl); reflexivity. }
    rewrite Hd. unfold showNoteChain.
    destruct (ui_getUserInput _ _ _ ctrl _) as [inputString|r1] eqn:E1; cbn.
    2:{ split; [discriminate|].
        intros (? & ? & ? & ? & ? & H1 & _). chase_stages. }
    destruct (parser_parseInput _ _ _ ctrl inputString) as [input|r2] eqn:E2;
      cbn.
    2:{ split; [discriminate|].
        intros (? & ? & ? & ? & ? & H1 & H2 & _). chase_stages. }
    destruct (parser_resolveNotePathForInput _ _ _ ctrl input)
      as [path|r3] eqn:E3;
      destruct (inject_buildNoteContent _ _ _ ctrl input)
        as [content|r4] eqn:E4; cbn.
    2,3,4:
      (split; [discriminate|];
       intros (? & ? & ? & ? & ? & H1 & H2 & H3 & H4 & _); chase_stages).
    destruct (reader_loadNote _ _ _ ctrl path content) as [doc|r5] eqn:E5;
      cbn.
    2:{ split; [discriminate|].
        intros (? & ? & ? & ? & ? & H1 & H2 & H3 & H4 & H5 & _).
        chase_stages. }
    split.
    + intros H. exists inputString, input, path, content, doc.
      repeat split; try reflexivity; try assumption. congruence.
    + intros (? & ? & ? & ? & ? & H1 & H2 & H3 & H4 & H5 & H6).
      chase_stages. rewrite H6. reflexivity.
  - intros reason. unfold showNote.
    destruct (showNoteChain _ _ _ ctrl) as [editor|r]; cbn.
    + split; discriminate.
    + split; intros H; injection H as <-; reflexivity.
  - intros inputString input E1 E2. unfold showNoteChain.
    rewrite E1. cbn. rewrite E2. cbn. split.
    + intros reason E3 Hfirst. rewrite E3.
      destruct (inject_buildNoteContent _ _ _ ctrl input) as [content|r4];
        cbn; [reflexivity|].
      destruct Hfirst as [[content Hc]|Hp]; [discriminate Hc|].
      rewrite Hp. reflexivity.
    + intros reason E4 Hfirst. rewrite E4.
      destruct (parser_resolveNotePathForInput _ _ _ ctrl input)
        as [path|r3]; cbn; [reflexivity|].
      destruct Hfirst as [[path Hc]|Hp]; [discriminate Hc|].
      rewrite Hp. reflexivity.
  - intros reason Hc Hn. unfold showNote. rewrite Hc.
    destruct (looseNotEqualString reason "cancel") eqn:El; [reflexivity|].
    apply not_cancel_iff in El. contradiction.
Qed.

(** X8. [showEntry] with an offset loads the entry of that very offset,
    given that an input returns the offset it was given.  Its deferred is
    always settled, with what the chain ended with: fulfilled exactly when
    the entry loads, the fresh input with the offset is injected into it and
    the resulting document is shown; a failure of the loader reaches the
    deferred unchanged, and is logged unless it is the sentinel. *)
Theorem showEntry_loads_the_offset {Input Path Content : Type}
    (ctrl : Ctrl Input Path Content) (n : Z) :
  offset _ _ _ ctrl (withOffset _ _ _ ctrl (newInput _ _ _ ctrl) n) = n ->
  deferred (showEntry _ _ _ ctrl n) = Some (showEntryChain _ _ _ ctrl n)
  /\ (forall editor,
        deferred (showEntry _ _ _ ctrl n) = Some (Fulfilled editor)
        <-> exists entry doc,
              reader_loadEntryForOffset _ _ _ ctrl n = Fulfilled entry
              /\ inject_injectInput _ _ _ ctrl entry
                   (withOffset _ _ _ ctrl (newInput _ _ _ ctrl) n)
                 = Fulfilled doc
              /\ ui_showDocument _ _ _ ctrl doc = Fulfilled editor)
  /\ (forall reason,
        reader_loadEntryForOffset _ _ _ ctrl n = RejectedWith reason ->
        showEntry _ _ _ ctrl n
        = mkOutcome
            (if looseNotEqualString reason "cancel"
             then [ConsoleError "Failed to get file, Reason: " reason]
             else [])
            (Some (RejectedWith reason))).
Proof.
  intros Hoff.
  assert (Hd : deferred (showEntry _ _ _ ctrl n)
               = Some (showEntryChain _ _ _ ctrl n)).
  { unfold showEntry. destruct (showEntryChain _ _ _ ctrl n); reflexivity. }
  split; [exact Hd|split].
  - intros editor. rewrite Hd.
    unfold showEntryChain, loadPageForInput. rewrite Hoff.
    destruct (reader_loadEntryForOffset _ _ _ ctrl n) as [entry|r1] eqn:E1;
      cbn.
    2:{ split; [discriminate|]. intros (? & ? & H1 & _). chase_stages. }
    destruct (inject_injectInput _ _ _ ctrl entry _) as [doc|r2] eqn:E2; cbn.
    2:{ split; [discriminate|]. intros (? & ? & H1 & H2 & _).
        chase_stages. }
    split.
    + intros H. exists entry, doc. repeat split; try assumption. congruence.
    + intros (? & ? & H1 & H2 & H3). chase_stages. rewrite H3. reflexivity.
  - intros reason Hr. unfold showEntry, showEntryChain, loadPageForInput.
    rewrite Hoff, Hr. reflexivity.
Qed.

Lemma showEntry_loads_the_offset_witness :
  deferred (showEntry _ _ _ Sample.workingCtrl (-1))
  = Some (Fulfilled (mkTextEditor Sample.workday []))
  /\ showEntry _ _ _ Sample.cancellingCtrl 7
     = mkOutcome [] (Some (RejectedWith cancel)).
Proof.
  split.
  - destruct (showEntry_loads_the_offset Sample.workingCtrl (-1) eq_refl)
      as (_ & H & _).
    apply H. exists Sample.workday, Sample.workday. repeat split.
  - destruct (showEntry_loads_the_offset Sample.cancellingCtrl 7 eq_refl)
      as (_ & _ & H).
    apply (H cancel). reflexivity.
Defined.

(** X10. [printTime] never settles the promise it returns: its executor
    starts the chain and calls neither [resolve] nor [reject].  It injects at
    most once: exactly when the template of the time string is available and
    the active editor has a selection, and then the formatted current time,
    into the document of that editor at the cursor of its first selection.
    Without an editor, or when the template fails, nothing is injected. *)
Theorem printTime_never_settles
    (formatDate : Z -> string -> string -> string)
    (editor : option TextEditor) (getTimeStringTemplate : Promise FileTemplate)
    (getLocale : string) (now : Z) :
  settled (printTime formatDate editor getTimeStringTemplate getLocale now)
  = None
  /\ (List.length
        (injected
           (printTime formatDate editor getTimeStringTemplate getLocale now))
      <= 1)%nat
  /\ (forall i,
        In i (injected
                (printTime formatDate editor getTimeStringTemplate getLocale
                   now))
        <-> exists e tpl s,
              editor = Some e
              /\ getTimeStringTemplate = Fulfilled tpl
              /\ selection e = Some s
              /\ i = mkInjection (document e)
                       (formatDate now (template tpl) getLocale) (active s)).
Proof.
  unfold printTime, printTimeInject, runExecutor.
  destruct getTimeStringTemplate as [tpl|reason]; cbn.
  - destruct editor as [e|]; cbn.
    + destruct (selection e) as [s|] eqn:Es; cbn.
      * repeat split; try lia.
        -- intros [<-|[]]. exists e, tpl, s. auto.
        -- intros (e' & tpl' & s' & He & Ht & Hs & ->).
           injection He as <-. injection Ht as <-.
           rewrite Es in Hs. injection Hs as <-. left. reflexivity.
      * repeat split; try lia; try contradiction.
        intros (e' & tpl' & s' & He & _ & Hs & _).
        injection He as <-. rewrite Es in Hs. discriminate Hs.
    + repeat split; try lia; try contradiction.
      intros (e' & _ & _ & He & _). discriminate He.
  - repeat split; try lia; try contradiction.
    intros (_ & tpl' & _ & _ & Ht & _). discriminate Ht.
Qed.
